(** * Room extraction tool (tools/extract_rooms.py): a shallow embedding

    The development follows the source file top to bottom:
    - [Py]: the Python built-ins the tool relies on ([str.strip],
      [str.replace], [in], [str.startswith], [int()], [float()]), with the
      exceptions they raise made explicit;
    - [Re]: the backtracking matcher behind
      [re.finditer(r"(\w+)\s*=\s*([^\r\n]+)", code)];
    - [ET]: the part of [xml.etree.ElementTree] that is used
      ([find], [findall], [get], [text]);
    - [parse_code_vars], [parse_room_file], [get_room_order], [main].

    Modelling conventions.
    - A Python [str] is a [string]; a character is a code point below 256
      (the Latin-1 block), classified as Python's Unicode database does.
    - A Python [float] is a [spec_float] (binary64: precision 53, emax 1024);
      decimal literals are rounded to nearest-even with the Standard
      Library's [SFdiv] / [binary_normalize].
    - [int()] refuses a literal of more than 4300 digits with a
      [ValueError], as the interpreter does unless its limit
      ([sys.set_int_max_str_digits]) is changed.
    - Printing is not modelled, except for the target name of the warp
      summary. *)

From Stdlib Require Import ZArith NArith Ascii String List Bool Lia.
From Stdlib Require Import Floats.SpecFloat DecimalString.
From stdpp Require Import base option list strings gmap.

Open Scope Z_scope.

(** ** Exceptions and the result monad *)

Inductive exn := ValueError | OverflowError.

Inductive result (A : Type) :=
| Ok (a : A)
| Raise (e : exn).
Arguments Ok {A} a.
Arguments Raise {A} e.

(** Sequencing: an exception raised by [r] propagates. *)
Definition bind {A B} (k : A -> result B) (r : result A) : result B :=
  match r with
  | Ok a => k a
  | Raise e => Raise e
  end.

#[global] Instance result_bind : MBind result := @bind.
#[global] Instance result_ret : MRet result := @Ok.

Definition is_ok {A} (r : result A) : bool :=
  match r with Ok _ => true | Raise _ => false end.

Definition from_ok {A} (r : result A) : option A :=
  match r with Ok a => Some a | Raise _ => None end.

(** [for x in l: acc = body(acc, x)], stopping at the first exception. *)
Fixpoint for_each {A S} (body : S -> A -> result S) (l : list A) (acc : S)
  : result S :=
  match l with
  | [] => Ok acc
  | x :: l' => acc' ← body acc x; for_each body l' acc'
  end.

(** ** Python strings and numbers *)

Module Py.

Definition LF : ascii := ascii_of_nat 10.
Definition CR : ascii := ascii_of_nat 13.

Definition code (c : ascii) : N := N_of_ascii c.

Definition between (lo hi : N) (c : ascii) : bool :=
  ((lo <=? code c) && (code c <=? hi))%N.

Definition is_char (n : N) (c : ascii) : bool := (code c =? n)%N.

(** [str.isspace] on one character: the class behind [str.strip()] and the
    pattern's [\s]. *)
Definition isspace (c : ascii) : bool :=
  between 9 13 c || between 28 32 c || is_char 133 c || is_char 160 c.

(** White space as [int()] and [float()] skip it around a literal: the C
    locale's white space, after non-ASCII Unicode spaces have been turned
    into blanks. *)
Definition is_numeric_space (c : ascii) : bool :=
  between 9 13 c || is_char 32 c || is_char 133 c || is_char 160 c.

Definition isdigit (c : ascii) : bool := between 48 57 c.

(** The pattern's [\w]: alphanumeric (in the Unicode sense) or underscore. *)
Definition is_word (c : ascii) : bool :=
  between 48 57 c || between 65 90 c || between 97 122 c || is_char 95 c
  || is_char 170 c || is_char 178 c || is_char 179 c || is_char 181 c
  || is_char 185 c || is_char 186 c || between 188 190 c
  || between 192 214 c || between 216 246 c || between 248 255 c.

Definition lower (c : ascii) : ascii :=
  if between 65 90 c then ascii_of_N (code c + 32) else c.

Fixpoint map_chars (f : ascii -> ascii) (s : string) : string :=
  match s with
  | EmptyString => EmptyString
  | String c s' => String (f c) (map_chars f s')
  end.

Definition is_empty (s : string) : bool :=
  match s with EmptyString => true | _ => false end.

Fixpoint lstrip_by (sp : ascii -> bool) (s : string) : string :=
  match s with
  | EmptyString => EmptyString
  | String c s' => if sp c then lstrip_by sp s' else s
  end.

Fixpoint rstrip_by (sp : ascii -> bool) (s : string) : string :=
  match s with
  | EmptyString => EmptyString
  | String c s' =>
      match rstrip_by sp s' with
      | EmptyString => if sp c then EmptyString else String c EmptyString
      | r => String c r
      end
  end.

Definition strip_by (sp : ascii -> bool) (s : string) : string :=
  rstrip_by sp (lstrip_by sp s).

(** [s.strip()] *)
Definition strip (s : string) : string := strip_by isspace s.

(** [s.startswith(p)] *)
Fixpoint startswith (p s : string) : bool :=
  match p, s with
  | EmptyString, _ => true
  | String a p', String b s' => if ascii_dec a b then startswith p' s' else false
  | String _ _, EmptyString => false
  end.

(** [p in s] *)
Fixpoint contains (p s : string) : bool :=
  startswith p s ||
  match s with
  | EmptyString => false
  | String _ s' => contains p s'
  end.

(** [s.replace(old, new)] for a non-empty [old]: the occurrences are taken
    from left to right and do not overlap.  [skip] counts the characters of
    an occurrence that are still to be passed over. *)
Fixpoint replace_from (old new : string) (skip : nat) (s : string) : string :=
  match s with
  | EmptyString => EmptyString
  | String c s' =>
      match skip with
      | S k => replace_from old new k s'
      | O =>
          if startswith old s
          then new +:+ replace_from old new (String.length old - 1) s'
          else String c (replace_from old new 0 s')
      end
  end.

Definition replace (old new s : string) : string := replace_from old new 0 s.

(** *** [int(str)] *)

Definition digit_val (c : ascii) : Z := Z.of_N (code c) - 48.

(** Digits with single underscores between them: [digit (_? digit)*].
    [after_digit] tells whether the previous character was a digit. *)
Fixpoint digits_value (s : string) (after_digit : bool) (acc : Z) : option Z :=
  match s with
  | EmptyString => if after_digit then Some acc else None
  | String c s' =>
      if isdigit c then digits_value s' true (10 * acc + digit_val c)
      else if is_char 95 c && after_digit then digits_value s' false acc
      else None
  end.

Definition signed (s : string) : bool * string :=
  match s with
  | String "+" r => (false, r)
  | String "-" r => (true, r)
  | _ => (false, s)
  end.

(** The number of digits of a literal, underscores not counted. *)
Fixpoint count_digits (s : string) : N :=
  match s with
  | EmptyString => 0%N
  | String c s' => ((if isdigit c then 1 else 0) + count_digits s')%N
  end.

(** [sys.get_int_max_str_digits()], as the interpreter starts. *)
Definition int_max_str_digits : N := 4300.

Definition int_literal (s : string) : option Z :=
  let '(neg, r) := signed (strip_by is_numeric_space s) in
  n ← digits_value r false 0;
  if (int_max_str_digits <? count_digits r)%N then None
  else Some (if neg then - n else n).

Definition int (s : string) : result Z :=
  match int_literal s with
  | Some n => Ok n
  | None => Raise ValueError
  end.

(** *** [float(str)] *)

Definition prec : Z := 53.
Definition emax : Z := 1024.

(** The binary64 number nearest to [(-1)^neg * m * 10^e]. *)
Definition float_of_decimal (neg : bool) (m : Z) (e : Z) : spec_float :=
  match m with
  | Zpos p =>
      match e with
      | Zneg _ =>
          match 10 ^ (- e) with
          | Zpos d => SFdiv prec emax (S754_finite neg p 0) (S754_finite false d 0)
          | _ => S754_nan
          end
      | _ => binary_normalize prec emax (if neg then - (m * 10 ^ e) else m * 10 ^ e) 0 neg
      end
  | _ => S754_zero neg
  end.

(** Underscores in a float literal must stand between two digits; they are
    then dropped.  [prev] is the previous character. *)
Fixpoint drop_underscores (s : string) (prev : option ascii) : option string :=
  match s with
  | EmptyString =>
      match prev with
      | Some p => if is_char 95 p then None else Some EmptyString
      | None => Some EmptyString
      end
  | String c s' =>
      if is_char 95 c then
        match prev with
        | Some p => if isdigit p then drop_underscores s' (Some c) else None
        | None => None
        end
      else
        match prev with
        | Some p =>
            if is_char 95 p && negb (isdigit c) then None
            else String c <$> drop_underscores s' (Some c)
        | None => String c <$> drop_underscores s' (Some c)
        end
  end.

(** Longest prefix of characters in a class, and what follows it. *)
Fixpoint span (p : ascii -> bool) (s : string) : string * string :=
  match s with
  | EmptyString => (EmptyString, EmptyString)
  | String c s' =>
      if p c then let '(a, b) := span p s' in (String c a, b)
      else (EmptyString, s)
  end.

Fixpoint plain_digits (s : string) (acc : Z) : Z :=
  match s with
  | EmptyString => acc
  | String c s' => plain_digits s' (10 * acc + digit_val c)
  end.

(** The exponent part: nothing, or [e], an optional sign and digits up to
    the end of the literal. *)
Definition exponent (s : string) : option Z :=
  match s with
  | EmptyString => Some 0
  | String c r =>
      if is_char 101 (lower c) then
        let '(neg, r') := signed r in
        let '(ds, rest) := span isdigit r' in
        if is_empty ds || negb (is_empty rest) then None
        else Some (if neg then - plain_digits ds 0 else plain_digits ds 0)
      else None
  end.

(** [digits [. digits] [exponent]] or [. digits [exponent]], as mantissa
    and decimal exponent. *)
Definition decimal_literal (s : string) : option (Z * Z) :=
  let '(ip, r1) := span isdigit s in
  let '(fp, r2) :=
    match r1 with
    | String "." r => span isdigit r
    | _ => (EmptyString, r1)
    end in
  if is_empty ip && is_empty fp then None
  else
    e ← exponent r2;
    Some (plain_digits (ip +:+ fp) 0, e - Z.of_nat (String.length fp)).

Definition float_literal (s : string) : option spec_float :=
  t ← drop_underscores (strip_by is_numeric_space s) None;
  let '(neg, r) := signed t in
  let w := map_chars lower r in
  if String.eqb w "inf" || String.eqb w "infinity" then Some (S754_infinity neg)
  else if String.eqb w "nan" then Some S754_nan
  else
    '(m, e) ← decimal_literal r;
    Some (float_of_decimal neg m e).

Definition float (s : string) : result spec_float :=
  match float_literal s with
  | Some f => Ok f
  | None => Raise ValueError
  end.

(** [int(f)] for a float [f]: truncation towards zero. *)
Definition int_of_float (f : spec_float) : result Z :=
  match f with
  | S754_zero _ => Ok 0
  | S754_infinity _ => Raise OverflowError
  | S754_nan => Raise ValueError
  | S754_finite neg m e =>
      let a := match e with
               | Zneg _ => Z.shiftr (Zpos m) (- e)
               | _ => Z.shiftl (Zpos m) e
               end in
      Ok (if neg then - a else a)
  end.

End Py.

(** ** The pattern [(\w+)\s*=\s*([^\r\n]+)] *)

Module Re.

(** A greedy repetition of a character class, at least [min] times, followed
    by the rest of the pattern [k], which receives the text the repetition
    took and what is left.  The longest repetition is tried first; when the
    rest of the pattern fails after it, one character is given back, down
    to [min] characters: this is the backtracking of [re]. *)
Fixpoint rep {R} (cls : ascii -> bool) (min : nat) (s : string)
    (k : string -> string -> option R) : option R :=
  let stop := match min with O => k EmptyString s | S _ => None end in
  match s with
  | EmptyString => stop
  | String c s' =>
      if cls c then
        match rep cls (Nat.pred min) s' (fun took rest => k (String c took) rest) with
        | Some r => Some r
        | None => stop
        end
      else stop
  end.

(** One literal character. *)
Definition lit {R} (c : ascii) (s : string) (k : string -> option R) : option R :=
  match s with
  | String c' s' => if ascii_dec c c' then k s' else None
  | EmptyString => None
  end.

(** [[^\r\n]] *)
Definition not_newline (c : ascii) : bool :=
  negb (Py.is_char 13 c || Py.is_char 10 c).

(** A match of the pattern: group 1, group 2, and the text after the match. *)
Record found := { group1 : string; group2 : string; after : string }.

(** The pattern tried at the start of [s]. *)
Definition match_here (s : string) : option found :=
  rep Py.is_word 1 s (fun g1 s1 =>
  rep Py.isspace 0 s1 (fun _ s2 =>
  lit "=" s2 (fun s3 =>
  rep Py.isspace 0 s3 (fun _ s4 =>
  rep not_newline 1 s4 (fun g2 s5 =>
  Some {| group1 := g1; group2 := g2; after := s5 |}))))).

(** [re.finditer]: the matches from left to right, none overlapping another.
    The scan tries the pattern at the current position; after a match it
    resumes where the match ended, otherwise one character further.
    [skip] counts the characters of the last match still to be passed. *)
Fixpoint finditer_from (skip : nat) (s : string) : list found :=
  match skip, s with
  | S k, String _ s' => finditer_from k s'
  | S _, EmptyString => []
  | O, EmptyString => []
  | O, String _ s' =>
      match match_here s with
      | Some m =>
          m :: finditer_from (String.length s' - String.length (after m)) s'
      | None => finditer_from 0 s'
      end
  end.

Definition finditer (s : string) : list found := finditer_from 0 s.

End Re.

(** ** parse_code_vars *)

(** A value of the mini-language: [int], [float] or [str]. *)
Inductive pyval :=
| VInt (n : Z)
| VFloat (f : spec_float)
| VStr (s : string).

(** The body of [try: ... except ValueError: ...] for one trimmed value. *)
Definition try_number (value : string) : result pyval :=
  if Py.contains "." value
  then f ← Py.float value; Ok (VFloat f)
  else n ← Py.int value; Ok (VInt n).

(** [except ValueError] catches that exception only. *)
Definition coerce (value : string) : result pyval :=
  match try_number value with
  | Raise ValueError => Ok (VStr value)
  | r => r
  end.

Definition entity_cr : string := "&#13;".
Definition entity_lf : string := "&#10;".

Definition decode_entities (code : string) : string :=
  Py.replace entity_lf (String Py.LF EmptyString)
    (Py.replace entity_cr (String Py.CR EmptyString) code).

(** One turn of the loop over the matches. *)
Definition store_match (vars : gmap string pyval) (m : Re.found)
  : result (gmap string pyval) :=
  let name := Py.strip (Re.group1 m) in
  let value := Py.strip (Re.group2 m) in
  v ← coerce value;
  Ok (<[name := v]> vars).

(** [code] is [None] for Python's [None]. *)
Definition parse_code_vars (code : option string) : result (gmap string pyval) :=
  match code with
  | None => Ok ∅
  | Some EmptyString => Ok ∅
  | Some code => for_each store_match (Re.finditer (decode_entities code)) ∅
  end.

Definition show_match (m : Re.found) : string * string :=
  (Re.group1 m, Re.group2 m).

(** ** The element trees of [xml.etree.ElementTree] *)

Module ET.

(** An element: its tag, its attributes, its text ([None] when there is
    none) and its children in document order. *)
#[warnings="-register-all"]
Inductive element :=
| Element (tag : string) (attrib : gmap string string) (text : option string)
    (children : list element).

Definition tag (e : element) : string :=
  match e with Element t _ _ _ => t end.
Definition attrib (e : element) : gmap string string :=
  match e with Element _ a _ _ => a end.
Definition text (e : element) : option string :=
  match e with Element _ _ t _ => t end.
Definition children (e : element) : list element :=
  match e with Element _ _ _ c => c end.

(** [e.findall(t)]: the children of [e] tagged [t]. *)
Definition findall (t : string) (e : element) : list element :=
  filter (fun c => tag c = t) (children e).

(** [e.find(t)]: the first of them, or [None]. *)
Definition find (t : string) (e : element) : option element :=
  head (findall t e).

(** [e.get(key)], [None] when the attribute is absent. *)
Definition get (key : string) (e : element) : option string :=
  attrib e !! key.

(** The elements below [e], in document order. *)
Fixpoint descendants (e : element) : list element :=
  match e with
  | Element _ _ _ cs =>
      (fix below (l : list element) : list element :=
         match l with
         | [] => []
         | c :: l' => c :: descendants c ++ below l'
         end) cs
  end.

(** [e.find(".//t[@key='value']")] *)
Definition find_descendant (t key value : string) (e : element)
  : option element :=
  head (filter (fun c => tag c = t ∧ get key c = Some value) (descendants e)).

(** What [ET.parse(path).getroot()] yields: [None] stands for any exception
    raised by the parser. *)
Definition document := option element.

End ET.

(** ** The data classes *)

Module SpawnPoint.
Record t := mk { x : Z; y : Z }.
End SpawnPoint.

Module Warp.
Record t := mk {
  x : Z;
  y : Z;
  warp_type : string;
  next_room : option pyval;
  new_x : option pyval;
  new_y : option pyval;
  code : string
}.
End Warp.

Module Instance.
Record t := mk {
  obj_name : string;
  x : Z;
  y : Z;
  code : string;
  instance_id : Z
}.
End Instance.

Module RoomData.
Record t := mk {
  name : string;
  room_index : Z;
  width : Z;
  height : Z;
  has_collectibles : bool;
  spawn_points : list SpawnPoint.t;
  warps : list Warp.t;
  npcs : list Instance.t;
  shops : list Instance.t;
  special_objects : list Instance.t
}.

Definition set_room_index (i : Z) (r : t) : t :=
  mk (name r) i (width r) (height r) (has_collectibles r) (spawn_points r)
     (warps r) (npcs r) (shops r) (special_objects r).
End RoomData.

(** ** parse_room_file *)

Definition spawn_marker : string := "obj_slimepoint".
Definition warp_prefix : string := "warp_".
Definition npc_prefix : string := "NPC_".

Definition shop_names : list string :=
  ["obj_shop_item"; "obj_shop_call_item"; "obj_sell_sign"].

Definition special_names : list string :=
  ["obj_bank"; "obj_mailbox"; "obj_storage_box"; "obj_save_bg";
   "obj_clock_stand"; "obj_warpcenter"; "obj_clan_machine";
   "obj_post_office"; "obj_gum_machine"; "obj_soda_machine"; "obj_upgrader";
   "Planting_Field"; "Building_Spot"; "obj_drill"; "obj_race_machine";
   "obj_race_start_ver"; "obj_race_start_hor"; "obj_race_end_ver";
   "obj_race_end_hor"; "obj_teleporter"; "obj_music_changer";
   "obj_billboard"; "obj_combinator"].

Definition collectibles_marker : string := "rm_points = 1".

(** [int(e.text) if e is not None and e.text else 0] *)
Definition dimension (e : option ET.element) : result Z :=
  match e with
  | Some el =>
      match ET.text el with
      | Some (String _ _ as t) => Py.int t
      | _ => Ok 0
      end
  | None => Ok 0
  end.

(** [int(float(inst.get(key, 0)))] *)
Definition coordinate (key : string) (inst : ET.element) : result Z :=
  match ET.get key inst with
  | Some s => f ← Py.float s; Py.int_of_float f
  | None => Ok 0
  end.

(** [int(inst.get("id", 0))] *)
Definition identifier (inst : ET.element) : result Z :=
  match ET.get "id" inst with
  | Some s => Py.int s
  | None => Ok 0
  end.

(** The five lists the loop over the instances appends to. *)
Record collections := {
  c_spawn_points : list SpawnPoint.t;
  c_warps : list Warp.t;
  c_npcs : list Instance.t;
  c_shops : list Instance.t;
  c_special_objects : list Instance.t
}.

Definition no_collections : collections :=
  {| c_spawn_points := []; c_warps := []; c_npcs := []; c_shops := [];
     c_special_objects := [] |}.

(** The [if] / [elif] chain on [obj_name]. *)
Definition classify (obj_name : string) (x y : Z) (code : string) (inst_id : Z)
    (code_vars : gmap string pyval) (acc : collections) : collections :=
  let instance := Instance.mk obj_name x y code inst_id in
  if String.eqb obj_name spawn_marker then
    {| c_spawn_points := c_spawn_points acc ++ [SpawnPoint.mk x y];
       c_warps := c_warps acc; c_npcs := c_npcs acc; c_shops := c_shops acc;
       c_special_objects := c_special_objects acc |}
  else if Py.startswith warp_prefix obj_name then
    let warp :=
      Warp.mk x y obj_name (code_vars !! "next_room") (code_vars !! "new_x")
        (code_vars !! "new_y") code in
    {| c_spawn_points := c_spawn_points acc;
       c_warps := c_warps acc ++ [warp]; c_npcs := c_npcs acc;
       c_shops := c_shops acc; c_special_objects := c_special_objects acc |}
  else if Py.startswith npc_prefix obj_name then
    {| c_spawn_points := c_spawn_points acc; c_warps := c_warps acc;
       c_npcs := c_npcs acc ++ [instance]; c_shops := c_shops acc;
       c_special_objects := c_special_objects acc |}
  else if bool_decide (obj_name ∈ shop_names) then
    {| c_spawn_points := c_spawn_points acc; c_warps := c_warps acc;
       c_npcs := c_npcs acc; c_shops := c_shops acc ++ [instance];
       c_special_objects := c_special_objects acc |}
  else if bool_decide (obj_name ∈ special_names) then
    {| c_spawn_points := c_spawn_points acc; c_warps := c_warps acc;
       c_npcs := c_npcs acc; c_shops := c_shops acc;
       c_special_objects := c_special_objects acc ++ [instance] |}
  else acc.

(** One turn of the loop over [instances.findall("instance")]. *)
Definition add_instance (acc : collections) (inst : ET.element)
  : result collections :=
  let obj_name := default EmptyString (ET.get "objName" inst) in
  x ← coordinate "x" inst;
  y ← coordinate "y" inst;
  let code := default EmptyString (ET.get "code" inst) in
  inst_id ← identifier inst;
  code_vars ← parse_code_vars (Some code);
  Ok (classify obj_name x y code inst_id code_vars acc).

(** [code_elem.text if code_elem is not None and code_elem.text else ""] *)
Definition room_code (root : ET.element) : string :=
  match ET.find "code" root with
  | Some code_elem => default EmptyString (ET.text code_elem)
  | None => EmptyString
  end.

(** [stem] is [filepath.stem].  The result is [Ok None] for the [None] the
    function returns on a document that does not parse, [Ok (Some room)]
    for a room, and [Raise e] when an exception leaves the function. *)
Definition parse_room_file (stem : string) (doc : ET.document)
  : result (option RoomData.t) :=
  match doc with
  | None => Ok None
  | Some root =>
      let room_name := Py.replace ".room" "" stem in
      width ← dimension (ET.find "width" root);
      height ← dimension (ET.find "height" root);
      let has_collectibles := Py.contains collectibles_marker (room_code root) in
      match ET.find "instances" root with
      | None =>
          Ok (Some (RoomData.mk room_name 0 width height has_collectibles
                      [] [] [] [] []))
      | Some instances =>
          acc ← for_each add_instance (ET.findall "instance" instances)
                  no_collections;
          Ok (Some (RoomData.mk room_name 0 width height has_collectibles
                      (c_spawn_points acc) (c_warps acc) (c_npcs acc)
                      (c_shops acc) (c_special_objects acc)))
      end
  end.

(** ** get_room_order *)

Definition path_prefix : string := "rooms\".

(** [doc] is the parsed project file. *)
Definition get_room_order (doc : ET.document) : list string :=
  match doc with
  | None => []
  | Some root =>
      match ET.find_descendant "rooms" "name" "rooms" root with
      | None => []
      | Some rooms_elem =>
          omap (fun room =>
                  match ET.text room with
                  | Some (String _ _ as t) => Some (Py.replace path_prefix "" t)
                  | _ => None
                  end)
               (ET.findall "room" rooms_elem)
      end
  end.

(** ** main *)

(** A Python [dict] whose iteration order matters: the keys in the order of
    their first insertion, each with its latest value. *)
Module Dict.

Fixpoint set {V} (k : string) (v : V) (d : list (string * V))
  : list (string * V) :=
  match d with
  | [] => [(k, v)]
  | (k', v') :: d' =>
      if String.eqb k k' then (k, v) :: d' else (k', v') :: set k v d'
  end.

Fixpoint get {V} (k : string) (d : list (string * V)) : option V :=
  match d with
  | [] => None
  | (k', v') :: d' => if String.eqb k k' then Some v' else get k d'
  end.

End Dict.

(** [enumerate(l)] *)
Definition enumerate {A} (l : list A) : list (Z * A) :=
  imap (fun i a => (Z.of_nat i, a)) l.

(** [{name: idx for idx, name in enumerate(room_order)}]: the entries are
    stored one after the other. *)
Definition room_to_index (room_order : list string) : gmap string Z :=
  fold_left (fun d '(idx, name) => <[name := idx]> d) (enumerate room_order) ∅.

(** One turn of the loop over the room files. *)
Definition add_room (room_to_index : gmap string Z)
    (all_rooms : list (string * RoomData.t)) (file : string * ET.document)
  : result (list (string * RoomData.t)) :=
  room_data ← parse_room_file file.1 file.2;
  match room_data with
  | Some room =>
      let room := RoomData.set_room_index
                    (default (-1) (room_to_index !! RoomData.name room)) room in
      Ok (Dict.set (RoomData.name room) room all_rooms)
  | None => Ok all_rooms
  end.

(** [all_rooms] after the loop; [files] are the room files in the sorted
    order of the directory listing, each with the stem of its path. *)
Definition parse_rooms (room_order : list string)
    (files : list (string * ET.document))
  : result (list (string * RoomData.t)) :=
  for_each (add_room (room_to_index room_order)) files [].

(** The target name printed in the warp summary. *)
Definition show_int (n : Z) : string :=
  DecimalString.NilZero.string_of_int (Z.to_int n).

Definition target_name (room_order : list string) (next_room : Z) : string :=
  if (0 <=? next_room) && (next_room <? Z.of_nat (length room_order))
  then default EmptyString (room_order !! Z.to_nat next_room)
  else "room_" +:+ show_int next_room.

(** The values handed to [json.dump]. *)
#[warnings="-register-all"]
Inductive json :=
| JNull
| JBool (b : bool)
| JInt (n : Z)
| JFloat (f : spec_float)
| JStr (s : string)
| JList (items : list json)
| JObj (fields : list (string * json)).

Definition json_of_value (v : option pyval) : json :=
  match v with
  | None => JNull
  | Some (VInt n) => JInt n
  | Some (VFloat f) => JFloat f
  | Some (VStr s) => JStr s
  end.

(** [asdict] on a spawn point and on an instance. *)
Definition json_of_spawn_point (sp : SpawnPoint.t) : json :=
  JObj [("x", JInt (SpawnPoint.x sp)); ("y", JInt (SpawnPoint.y sp))].

Definition json_of_instance (i : Instance.t) : json :=
  JObj [("obj_name", JStr (Instance.obj_name i)); ("x", JInt (Instance.x i));
        ("y", JInt (Instance.y i)); ("code", JStr (Instance.code i));
        ("instance_id", JInt (Instance.instance_id i))].

Definition json_of_warp (w : Warp.t) : json :=
  JObj [("x", JInt (Warp.x w)); ("y", JInt (Warp.y w));
        ("type", JStr (Warp.warp_type w));
        ("next_room", json_of_value (Warp.next_room w));
        ("new_x", json_of_value (Warp.new_x w));
        ("new_y", json_of_value (Warp.new_y w))].

Definition json_of_room (room : RoomData.t) : json :=
  JObj [("index", JInt (RoomData.room_index room));
        ("width", JInt (RoomData.width room));
        ("height", JInt (RoomData.height room));
        ("has_collectibles", JBool (RoomData.has_collectibles room));
        ("spawn_points", JList (map json_of_spawn_point (RoomData.spawn_points room)));
        ("warps", JList (map json_of_warp (RoomData.warps room)));
        ("npcs", JList (map json_of_instance (RoomData.npcs room)));
        ("shops", JList (map json_of_instance (RoomData.shops room)));
        ("special_objects", JList (map json_of_instance (RoomData.special_objects room)))].

(** [output], filled by the loop over [all_rooms.items()]. *)
Definition build_output (room_order : list string)
    (all_rooms : list (string * RoomData.t)) : json :=
  JObj [("rooms",
         JObj (fold_left (fun d '(name, room) => Dict.set name (json_of_room room) d)
                 all_rooms []));
        ("room_order", JList (map JStr room_order))].

(** The run as a whole: the project file, then the room files, then the
    output. *)
Definition main (project : ET.document) (files : list (string * ET.document))
  : result json :=
  let room_order := get_room_order project in
  all_rooms ← parse_rooms room_order files;
  Ok (build_output room_order all_rooms).

(** Reading the output: a field of an object, an item of a list. *)
Definition field (key : string) (j : json) : option json :=
  match j with
  | JObj fields => Dict.get key fields
  | _ => None
  end.

Definition item (i : nat) (j : json) : option json :=
  match j with
  | JList items => items !! i
  | _ => None
  end.

Inductive step :=
| Key (k : string)
| Index (i : nat).

Definition follow (s : step) (j : json) : option json :=
  match s with
  | Key k => field k j
  | Index i => item i j
  end.

(** [j[s1][s2]...] *)
Fixpoint at_path (path : list step) (j : json) : option json :=
  match path with
  | [] => Some j
  | s :: path' =>
      match follow s j with
      | Some j' => at_path path' j'
      | None => None
      end
  end.

(** ** The classification rules, as the specification words them *)

Inductive category :=
| CSpawnPoint
| CWarp
| CNpc
| CShop
| CSpecialObject
| CDiscard.

(** The ordered rules: a test on the object name, and the category of the
    names that pass it. *)
Definition rules : list ((string -> bool) * category) :=
  [(fun n => String.eqb n spawn_marker, CSpawnPoint);
   (Py.startswith warp_prefix, CWarp);
   (Py.startswith npc_prefix, CNpc);
   (fun n => bool_decide (n ∈ shop_names), CShop);
   (fun n => bool_decide (n ∈ special_names), CSpecialObject)].

(** The first rule that matches decides; a name no rule matches is
    discarded. *)
Fixpoint first_match (rs : list ((string -> bool) * category)) (obj_name : string)
  : category :=
  match rs with
  | [] => CDiscard
  | (test, c) :: rs' => if test obj_name then c else first_match rs' obj_name
  end.

Definition category_of (obj_name : string) : category :=
  first_match rules obj_name.

(** What the loop reads off one instance record. *)
Record instance_data := {
  d_name : string;
  d_x : Z;
  d_y : Z;
  d_code : string;
  d_id : Z;
  d_vars : gmap string pyval
}.

Definition read_instance (inst : ET.element) : result instance_data :=
  x ← coordinate "x" inst;
  y ← coordinate "y" inst;
  inst_id ← identifier inst;
  code_vars ← parse_code_vars (Some (default EmptyString (ET.get "code" inst)));
  Ok {| d_name := default EmptyString (ET.get "objName" inst);
        d_x := x; d_y := y;
        d_code := default EmptyString (ET.get "code" inst);
        d_id := inst_id; d_vars := code_vars |}.

Definition only_spawn_point (sp : SpawnPoint.t) : collections :=
  {| c_spawn_points := [sp]; c_warps := []; c_npcs := []; c_shops := [];
     c_special_objects := [] |}.

(** Where an instance goes: the one collection of its category, or
    nowhere. *)
Definition placement (d : instance_data) : collections :=
  let instance := Instance.mk (d_name d) (d_x d) (d_y d) (d_code d) (d_id d) in
  match category_of (d_name d) with
  | CSpawnPoint => only_spawn_point (SpawnPoint.mk (d_x d) (d_y d))
  | CWarp =>
      {| c_spawn_points := [];
         c_warps := [Warp.mk (d_x d) (d_y d) (d_name d) (d_vars d !! "next_room")
                       (d_vars d !! "new_x") (d_vars d !! "new_y") (d_code d)];
         c_npcs := []; c_shops := []; c_special_objects := [] |}
  | CNpc =>
      {| c_spawn_points := []; c_warps := []; c_npcs := [instance];
         c_shops := []; c_special_objects := [] |}
  | CShop =>
      {| c_spawn_points := []; c_warps := []; c_npcs := [];
         c_shops := [instance]; c_special_objects := [] |}
  | CSpecialObject =>
      {| c_spawn_points := []; c_warps := []; c_npcs := []; c_shops := [];
         c_special_objects := [instance] |}
  | CDiscard => no_collections
  end.

(** Collection by collection, one after the other. *)
Definition merge (a b : collections) : collections :=
  {| c_spawn_points := c_spawn_points a ++ c_spawn_points b;
     c_warps := c_warps a ++ c_warps b;
     c_npcs := c_npcs a ++ c_npcs b;
     c_shops := c_shops a ++ c_shops b;
     c_special_objects := c_special_objects a ++ c_special_objects b |}.

Definition placements (ds : list instance_data) : collections :=
  foldr (fun d c => merge (placement d) c) no_collections ds.

(** The number of records in the five collections together. *)
Definition size (c : collections) : nat :=
  length (c_spawn_points c) + length (c_warps c) + length (c_npcs c)
  + length (c_shops c) + length (c_special_objects c).

Definition collections_of (room : RoomData.t) : collections :=
  {| c_spawn_points := RoomData.spawn_points room;
     c_warps := RoomData.warps room;
     c_npcs := RoomData.npcs room;
     c_shops := RoomData.shops room;
     c_special_objects := RoomData.special_objects room |}.

(** ** The coercion of a value, as the specification words it *)

(** With a decimal point: a float when the text is a float literal.
    Without: an integer when the text is an integer literal.  Otherwise the
    text itself. *)
Definition typed_value (value : string) : pyval :=
  if Py.contains "." value then
    match Py.float_literal value with
    | Some f => VFloat f
    | None => VStr value
    end
  else
    match Py.int_literal value with
    | Some n => VInt n
    | None => VStr value
    end.

(** One turn of the loop over the matches, with the value coerced as above. *)
Definition store_typed (vars : gmap string pyval) (m : Re.found)
  : gmap string pyval :=
  <[Py.strip (Re.group1 m) := typed_value (Py.strip (Re.group2 m))]> vars.

(** ** The numeric fields of a room document *)

(** The width, the height and, for each instance, the position and the
    identifier convert to numbers. *)
Definition numeric_fields_ok (root : ET.element) : bool :=
  is_ok (dimension (ET.find "width" root))
  && is_ok (dimension (ET.find "height" root))
  && match ET.find "instances" root with
     | None => true
     | Some instances =>
         forallb (fun inst => is_ok (coordinate "x" inst)
                              && is_ok (coordinate "y" inst)
                              && is_ok (identifier inst))
           (ET.findall "instance" instances)
     end.

(** ** Shapes of scripts *)

(** Every character of [s] is in the class [p]. *)
Fixpoint all_chars (p : ascii -> bool) (s : string) : bool :=
  match s with
  | EmptyString => true
  | String c s' => p c && all_chars p s'
  end.

(** A space or a tab. *)
Definition is_blank (c : ascii) : bool := Py.is_char 32 c || Py.is_char 9 c.

(** A carriage return or a line feed. *)
Definition is_line_break (c : ascii) : bool := Py.is_char 13 c || Py.is_char 10 c.

(** [s] starts with a character of the class [p]. *)
Definition starts_in (p : ascii -> bool) (s : string) : bool :=
  match s with
  | EmptyString => false
  | String c _ => p c
  end.



(** [c] is not the character [a]. *)
Definition differs (a c : ascii) : bool :=
  if ascii_dec a c then false else true.

(** Facts about the character classes, by cases on the eight bits. *)
Ltac by_bits c :=
  destruct c as [[] [] [] [] [] [] [] []]; vm_compute; congruence.

(** ** The first conversion of an instance record that fails *)

(** The exception of the first of [x], [y] and [id] that does not convert
    to a number, in the order the loop converts them. *)
Definition first_error (inst : ET.element) : option exn :=
  match coordinate "x" inst with
  | Raise e => Some e
  | Ok _ =>
      match coordinate "y" inst with
      | Raise e => Some e
      | Ok _ =>
          match identifier inst with
          | Raise e => Some e
          | Ok _ => None
          end
      end
  end.

(** The instance records of a room document, none when it has no instance
    list. *)
Definition instance_records (root : ET.element) : list ET.element :=
  match ET.find "instances" root with
  | Some instances => ET.findall "instance" instances
  | None => []
  end.

(** ** Scripts of well-formed assignments *)

(** One line of a script: a name, blanks, [=], blanks, a value, and the
    line breaks that end the line. *)
Record assignment := {
  a_name : string;
  a_gap : string;
  a_pad : string;
  a_value : string;
  a_break : string
}.

(** The text of a script, line after line. *)
Fixpoint render (lines : list assignment) : string :=
  match lines with
  | [] => EmptyString
  | a :: lines' =>
      a_name a +:+ a_gap a +:+
      String "=" (a_pad a +:+ a_value a +:+ a_break a +:+ render lines')
  end.

(** The name is a non-empty run of word characters; around [=] stand
    spaces or tabs only; the value starts with a character that is no white
    space, has no line break and no [&]; the line ends with line breaks. *)
Definition well_formed (a : assignment) : bool :=
  negb (Py.is_empty (a_name a))
  && all_chars Py.is_word (a_name a)
  && all_chars is_blank (a_gap a)
  && all_chars is_blank (a_pad a)
  && negb (Py.is_empty (a_value a))
  && negb (starts_in Py.isspace (a_value a))
  && all_chars Re.not_newline (a_value a)
  && all_chars (differs "&") (a_value a)
  && all_chars is_line_break (a_break a).

(** Every line is well formed, and every line but the last ends with at
    least one line break. *)
Fixpoint well_formed_script (lines : list assignment) : bool :=
  match lines with
  | [] => true
  | a :: lines' =>
      well_formed a
      && (match lines' with [] => true | _ => negb (Py.is_empty (a_break a)) end)
      && well_formed_script lines'
  end.


(** The entry of a line: its name, with its trimmed value coerced. *)
Definition store_assignment (vars : gmap string pyval) (a : assignment)
  : gmap string pyval :=
  <[a_name a := typed_value (Py.strip (a_value a))]> vars.

(** The matches of the lines of a script. *)
Fixpoint matches_of (lines : list assignment) : list Re.found :=
  match lines with
  | [] => []
  | a :: lines' =>
      {| Re.group1 := a_name a; Re.group2 := a_value a;
         Re.after := a_break a +:+ render lines' |} :: matches_of lines'
  end.

(** The script of the three assignments of a warp, one per line. *)
Definition warp_script : list assignment :=
  [{| a_name := "next_room"; a_gap := " "; a_pad := " "; a_value := "5";
      a_break := String Py.CR (String Py.LF "") |};
   {| a_name := "new_x"; a_gap := ""; a_pad := ""; a_value := "120";
      a_break := String Py.CR (String Py.LF "") |};
   {| a_name := "new_y"; a_gap := ""; a_pad := ""; a_value := "80";
      a_break := "" |}].


(** ** Scripts with their line breaks written as character references *)

(** A script cut into pieces: text, or a line break character. *)
Inductive piece :=
| Text (t : string)
| CarriageReturn
| LineFeed.

(** A piece as it stands in the document: the line break characters are
    written [&#13;] and [&#10;]. *)
Definition written (p : piece) : string :=
  match p with
  | Text t => t
  | CarriageReturn => entity_cr
  | LineFeed => entity_lf
  end.

(** A piece as it is meant. *)
Definition meant (p : piece) : string :=
  match p with
  | Text t => t
  | CarriageReturn => String Py.CR EmptyString
  | LineFeed => String Py.LF EmptyString
  end.

Fixpoint join (f : piece -> string) (ps : list piece) : string :=
  match ps with
  | [] => EmptyString
  | p :: ps' => f p +:+ join f ps'
  end.

(** The script after the first replacement: [&#13;] is a carriage return,
    [&#10;] still stands. *)
Definition half (p : piece) : string :=
  match p with
  | CarriageReturn => String Py.CR EmptyString
  | _ => written p
  end.

(** The text of a piece has no [&]. *)
Definition plain (p : piece) : bool :=
  match p with
  | Text t => all_chars (differs "&") t
  | _ => true
  end.

Definition warp_pieces : list piece :=
  [Text "next_room = 5"; CarriageReturn; LineFeed; Text "new_x=120";
   CarriageReturn; LineFeed; Text "new_y=80"].

(** ** The characters of an integer literal *)

(** A digit, an underscore, a sign, or white space that [int()] skips. *)
Definition int_char (c : ascii) : bool :=
  Py.isdigit c || Py.is_char 95 c || Py.is_char 43 c || Py.is_char 45 c
  || Py.is_numeric_space c.

(** ** Sample documents *)

Definition leaf (tag : string) (text : string) : ET.element :=
  ET.Element tag ∅ (Some text) [].

Definition instance_elem (attrs : list (string * string)) : ET.element :=
  ET.Element "instance" (list_to_map attrs) None [].

Definition room_doc (children : list ET.element) : ET.element :=
  ET.Element "room" ∅ None children.

(** A room whose script enables collectibles, and one whose script does not. *)
Definition collectibles_room : ET.element :=
  room_doc [leaf "width" "640"; leaf "height" "480";
            leaf "code" "music = 3; rm_points = 1; fog = 0"].

Definition plain_room : ET.element :=
  room_doc [leaf "width" "640"; leaf "height" "480"; leaf "code" "rm_points = 0"].

(** A room without an instance list whose width is not a number. *)
Definition bad_width_room : ET.element :=
  room_doc [leaf "width" "abc"; leaf "height" "480"].

(** A project file listing the rooms given, under its [rooms] section. *)
Definition project_doc (entries : list string) : ET.element :=
  ET.Element "assets" ∅ None
    [ET.Element "sounds" (<["name" := "sound"]> ∅) None [];
     ET.Element "rooms" (<["name" := "rooms"]> ∅) None (map (leaf "room") entries)].

Definition forest_town_project : ET.element :=
  project_doc ["rooms\forest"; "rooms\town"].

(** A project file that lists one room twice. *)
Definition duplicate_project : ET.element :=
  project_doc ["rooms\forest"; "rooms\town"; "rooms\forest"].

Definition warp_vert_instance : ET.element :=
  instance_elem [("objName", "warp_vert"); ("x", "16"); ("y", "32.5");
                 ("code", "next_room = 7&#13;&#10;new_x = 100&#13;&#10;new_y = 50");
                 ("id", "100001")].

(** A warp whose script names its target by a text, not a number. *)
Definition named_target_instance : ET.element :=
  instance_elem [("objName", "warp_hor"); ("x", "8"); ("y", "8");
                 ("code", "next_room = rm_town"); ("id", "100002")].

Definition named_target_room : ET.element :=
  room_doc [leaf "width" "320"; leaf "height" "240";
            ET.Element "instances" ∅ None [named_target_instance]].

(** A room with a spawn point at (64, 32), an NPC and a tree. *)
Definition meadow_instances : ET.element :=
  ET.Element "instances" ∅ None
    [instance_elem [("objName", "obj_slimepoint"); ("x", "64"); ("y", "32");
                    ("code", ""); ("id", "100010")];
     instance_elem [("objName", "NPC_guide"); ("x", "10.75"); ("y", "20");
                    ("code", "text = hello"); ("id", "100011")];
     instance_elem [("objName", "obj_tree"); ("x", "1"); ("y", "2");
                    ("code", ""); ("id", "100012")]].

Definition meadow_room : ET.element :=
  room_doc [leaf "width" "320"; leaf "height" "240"; meadow_instances].

Definition meadow_room_data : RoomData.t :=
  RoomData.mk "meadow" 0 320 240 false [SpawnPoint.mk 64 32] []
    [Instance.mk "NPC_guide" 10 20 "text = hello" 100011] [] [].

Definition speed_match : Re.found :=
  {| Re.group1 := "speed"; Re.group2 := "1.5"; Re.after := "" |}.

(** A room with one warp whose target, 7, is no index of the two rooms of
    [forest_town_project]. *)
Definition warp_room : ET.element :=
  room_doc [leaf "width" "320"; leaf "height" "240";
            ET.Element "instances" ∅ None [warp_vert_instance]].

(** A room whose second instance, a tree that no rule keeps, has a text
    for its [x]. *)
Definition signpost_instance : ET.element :=
  instance_elem [("objName", "obj_bank"); ("x", "5"); ("y", "6"); ("id", "1")].

Definition bad_tree_instance : ET.element :=
  instance_elem [("objName", "obj_tree"); ("x", "left"); ("y", "2")].

Definition orchard_room : ET.element :=
  room_doc [leaf "width" "100"; leaf "height" "100";
            ET.Element "instances" ∅ None [signpost_instance; bad_tree_instance]].

(** A run over one room file, and one over two files of the same room
    name. *)
Definition town_room_data : RoomData.t :=
  RoomData.mk "town" 1 640 480 true [] [] [] [] [].

Definition town_files : list (string * ET.document) :=
  [("town.room", Some collectibles_room)].

Definition town_twice_files : list (string * ET.document) :=
  [("town.room", Some plain_room); ("town.room.room", Some collectibles_room)].

(** A room whose width is written with a decimal point. *)
Definition decimal_width_room : ET.element :=
  room_doc [leaf "width" "640.0"; leaf "height" "480"].

(** The literal of [n] digits [1]. *)
Fixpoint ones (n : nat) : string :=
  match n with
  | O => EmptyString
  | S k => String "1" (ones k)
  end.

(** * Facts about the embedding *)

(** ** The result monad *)

Lemma bind_Ok {A B} (r : result A) (k : A -> result B) (b : B) :
  r ≫= k = Ok b <-> exists a, r = Ok a /\ k a = Ok b.
Proof.
  destruct r as [a|e]; simpl; split.
  - intros H. exists a. auto.
  - intros (a' & Ha & Hk). injection Ha as ->. exact Hk.
  - discriminate.
  - intros (a' & Ha & _). discriminate.
Qed.

Lemma for_each_app {A S} (body : S -> A -> result S) (l1 l2 : list A) (acc : S) :
  for_each body (l1 ++ l2) acc = for_each body l1 acc ≫= for_each body l2.
Proof.
  revert acc. induction l1 as [|x l1 IH]; intros acc; simpl; [reflexivity|].
  destruct (body acc x) as [acc'|e]; simpl; [apply IH | reflexivity].
Qed.

(** ** Strings *)

Lemma app_cons (c : ascii) (s t : string) :
  String c s +:+ t = String c (s +:+ t).
Proof. reflexivity. Qed.

Lemma app_empty_l (s : string) : "" +:+ s = s.
Proof. reflexivity. Qed.

Lemma app_assoc_str (s t u : string) : (s +:+ t) +:+ u = s +:+ (t +:+ u).
Proof.
  induction s as [|c s IH]; [reflexivity|]. rewrite !app_cons, IH. reflexivity.
Qed.

Lemma length_app_str (s t : string) :
  String.length (s +:+ t) = (String.length s + String.length t)%nat.
Proof.
  induction s as [|c s IH]; [reflexivity|]. rewrite app_cons. simpl. rewrite IH. reflexivity.
Qed.

Lemma startswith_spec (p s : string) :
  Py.startswith p s = true <-> exists post, s = p +:+ post.
Proof.
  revert s. induction p as [|a p IH]; intros s; simpl.
  - split; [intros _; exists s; reflexivity | reflexivity].
  - destruct s as [|b s].
    + split; [discriminate | intros (post & H); discriminate].
    + destruct (ascii_dec a b) as [->|Hne].
      * rewrite IH. split; intros (post & H); exists post.
        -- rewrite app_cons, H. reflexivity.
        -- rewrite app_cons in H. injection H as H. exact H.
      * split; [discriminate|]. intros (post & H). rewrite app_cons in H.
        injection H as H1 H2. congruence.
Qed.

(** [p in s] holds exactly when [s] is some text, then [p], then some text. *)
Lemma contains_spec (p s : string) :
  Py.contains p s = true <-> exists pre post, s = pre +:+ p +:+ post.
Proof.
  induction s as [|c s IH].
  - simpl. rewrite orb_false_r, startswith_spec. split.
    + intros (post & H). exists "", post. exact H.
    + intros (pre & post & H). destruct pre as [|a pre].
      * exists post. exact H.
      * rewrite app_cons in H. discriminate.
  - cbn [Py.contains]. rewrite orb_true_iff, startswith_spec, IH. split.
    + intros [(post & H) | (pre & post & H)].
      * exists "", post. exact H.
      * exists (String c pre), post. rewrite app_cons, H. reflexivity.
    + intros (pre & post & H). destruct pre as [|a pre].
      * left. exists post. exact H.
      * right. rewrite app_cons in H. injection H as _ H. exists pre, post. exact H.
Qed.

(** ** The matcher *)

Lemma all_chars_app (p : ascii -> bool) (s t : string) :
  all_chars p (s +:+ t) = all_chars p s && all_chars p t.
Proof.
  induction s as [|c s IH]; [reflexivity|]. rewrite app_cons. simpl.
  rewrite IH. apply andb_assoc.
Qed.

Lemma all_chars_impl (p q : ascii -> bool) (s : string) :
  (forall c, p c = true -> q c = true) ->
  all_chars p s = true -> all_chars q s = true.
Proof.
  intros Hpq. induction s as [|c s IH]; simpl; [reflexivity|].
  intros H. apply andb_true_iff in H as [Hc Hs].
  rewrite (Hpq c Hc), (IH Hs). reflexivity.
Qed.

(** A successful repetition took some characters of its class, at least
    [min] of them, and its continuation accepted what was left. *)
Lemma rep_Some {R} (cls : ascii -> bool) (min : nat) (s : string)
    (k : string -> string -> option R) (r : R) :
  Re.rep cls min s k = Some r ->
  exists took rest,
    s = took +:+ rest /\ all_chars cls took = true
    /\ (min <= String.length took)%nat /\ k took rest = Some r.
Proof.
  revert min k. induction s as [|c s IH]; intros min k; simpl.
  - destruct min; [|discriminate]. intros H. exists "", "". auto.
  - assert (match min with 0%nat => k "" (String c s) | S _ => None end = Some r ->
            exists took rest,
              String c s = took +:+ rest /\ all_chars cls took = true
              /\ (min <= String.length took)%nat /\ k took rest = Some r) as Hstop.
    { destruct min; [|discriminate]. intros H. exists "", (String c s). auto. }
    destruct (cls c) eqn:Hc; [|exact Hstop].
    destruct (Re.rep cls (Nat.pred min) s (fun took rest => k (String c took) rest))
      as [r'|] eqn:Hin; [|exact Hstop].
    intros [= ->]. apply IH in Hin as (took & rest & -> & Hall & Hmin & Hk).
    exists (String c took), rest. simpl. rewrite Hc, Hall.
    repeat split; [lia | exact Hk].
Qed.

(** The longest repetition is tried first: when the continuation accepts
    what is left after it, that is the answer. *)
Lemma rep_longest {R} (cls : ascii -> bool) (min : nat) (took rest : string)
    (k : string -> string -> option R) (r : R) :
  all_chars cls took = true ->
  (min <= String.length took)%nat ->
  starts_in cls rest = false ->
  k took rest = Some r ->
  Re.rep cls min (took +:+ rest) k = Some r.
Proof.
  revert min k. induction took as [|c took IH]; intros min k Hall Hmin Hrest Hk.
  - simpl in Hmin. assert (min = 0%nat) as -> by lia. rewrite app_empty_l.
    destruct rest as [|c rest]; simpl; [exact Hk|].
    simpl in Hrest. rewrite Hrest. exact Hk.
  - simpl in Hall. apply andb_true_iff in Hall as [Hc Hall].
    rewrite app_cons. simpl. rewrite Hc.
    rewrite (IH (Nat.pred min) (fun took' rest' => k (String c took') rest') Hall);
      [reflexivity | simpl in Hmin; lia | exact Hrest | exact Hk].
Qed.






(** After a match the scan resumes at the text that follows it. *)
Lemma finditer_from_skip (p d : string) :
  Re.finditer_from (String.length p) (p +:+ d) = Re.finditer_from 0 d.
Proof.
  induction p as [|c p IH]; [reflexivity|]. rewrite app_cons. simpl. exact IH.
Qed.

Lemma finditer_match (c : ascii) (p d : string) (m : Re.found) :
  Re.match_here (String c (p +:+ d)) = Some m ->
  Re.after m = d ->
  Re.finditer (String c (p +:+ d)) = m :: Re.finditer d.
Proof.
  intros Hm Hafter. unfold Re.finditer. cbn [Re.finditer_from].
  rewrite Hm, Hafter. f_equal. rewrite length_app_str.
  replace (String.length p + String.length d - String.length d)%nat
    with (String.length p) by lia.
  apply finditer_from_skip.
Qed.

(** ** parse_code_vars *)

Lemma int_cases (s : string) :
  (exists n, Py.int s = Ok n /\ Py.int_literal s = Some n)
  \/ (Py.int s = Raise ValueError /\ Py.int_literal s = None).
Proof. unfold Py.int. destruct (Py.int_literal s) as [n|]; eauto. Qed.

Lemma float_cases (s : string) :
  (exists f, Py.float s = Ok f /\ Py.float_literal s = Some f)
  \/ (Py.float s = Raise ValueError /\ Py.float_literal s = None).
Proof. unfold Py.float. destruct (Py.float_literal s) as [f|]; eauto. Qed.

(** The [try] block either yields a number or raises [ValueError], which
    the [except] clause turns into the text. *)
Lemma coerce_cases (value : string) :
  exists v, coerce value = Ok v
    /\ (try_number value = Ok v
        \/ try_number value = Raise ValueError /\ v = VStr value).
Proof.
  unfold coerce, try_number. destruct (Py.contains "." value).
  - destruct (float_cases value) as [(f & -> & _) | [-> _]]; simpl; eauto.
  - destruct (int_cases value) as [(n & -> & _) | [-> _]]; simpl; eauto.
Qed.

Lemma coerce_typed_value (value : string) : coerce value = Ok (typed_value value).
Proof.
  unfold coerce, try_number, typed_value. destruct (Py.contains "." value).
  - destruct (float_cases value) as [(f & -> & ->) | [-> ->]]; reflexivity.
  - destruct (int_cases value) as [(n & -> & ->) | [-> ->]]; reflexivity.
Qed.

Lemma typed_value_text (value t : string) : typed_value value = VStr t -> t = value.
Proof.
  unfold typed_value.
  destruct (Py.contains "." value); [destruct (Py.float_literal value)
                                    | destruct (Py.int_literal value)];
    congruence.
Qed.

Lemma store_match_typed (vars : gmap string pyval) (m : Re.found) :
  store_match vars m = Ok (store_typed vars m).
Proof. unfold store_match. rewrite coerce_typed_value. reflexivity. Qed.

(** The loop over the matches never raises. *)
Lemma store_matches_typed (ms : list Re.found) (vars : gmap string pyval) :
  for_each store_match ms vars = Ok (fold_left store_typed ms vars).
Proof.
  revert vars. induction ms as [|m ms IH]; intros vars; simpl; [reflexivity|].
  rewrite store_match_typed. simpl. apply IH.
Qed.

Lemma parse_code_vars_typed (code : string) :
  parse_code_vars (Some code)
  = Ok (fold_left store_typed (Re.finditer (decode_entities code)) ∅).
Proof.
  destruct code as [|c code]; [reflexivity|]. unfold parse_code_vars.
  apply store_matches_typed.
Qed.

(** A name of the mapping comes from a match, and holds its value. *)
Lemma fold_store_lookup (ms : list Re.found) (vars : gmap string pyval)
    (name : string) (v : pyval) :
  fold_left store_typed ms vars !! name = Some v ->
  vars !! name = Some v
  \/ exists m, m ∈ ms /\ name = Py.strip (Re.group1 m)
               /\ v = typed_value (Py.strip (Re.group2 m)).
Proof.
  revert vars. induction ms as [|m ms IH]; intros vars; simpl; [auto|].
  intros H. apply IH in H as [H | (m' & Hin & Hm')].
  - unfold store_typed in H. apply lookup_insert_Some in H as [[<- <-] | [_ H]].
    + right. exists m. split; [apply list_elem_of_here | auto].
    + auto.
  - right. exists m'. split; [apply list_elem_of_further, Hin | exact Hm'].
Qed.

(** The last match of a name decides its value. *)
Lemma fold_store_last (before after : list Re.found) (m : Re.found)
    (vars : gmap string pyval) :
  Forall (fun m' => Py.strip (Re.group1 m') ≠ Py.strip (Re.group1 m)) after ->
  fold_left store_typed (before ++ m :: after) vars !! Py.strip (Re.group1 m)
  = Some (typed_value (Py.strip (Re.group2 m))).
Proof.
  intros Hafter. rewrite fold_left_app. simpl.
  generalize (fold_left store_typed before vars). intros vars'.
  assert (store_typed vars' m !! Py.strip (Re.group1 m)
          = Some (typed_value (Py.strip (Re.group2 m)))) as H.
  { unfold store_typed. apply lookup_insert_eq. }
  revert H. generalize (store_typed vars' m).
  induction Hafter as [|m' after Hm' _ IH]; intros d Hd; simpl; [exact Hd|].
  apply IH. unfold store_typed at 1. rewrite lookup_insert_ne by exact Hm'. exact Hd.
Qed.

(** C3: the value stored for a matched pair is its trimmed text coerced:
    with a decimal point, the float it denotes, or the text when it is no
    float literal; without one, the integer it denotes, or the text when it
    is no integer literal.  (A later match of the same name overwrites.) *)
Theorem stored_value_is_coerced (code : string) (before after : list Re.found)
    (m : Re.found) :
  Re.finditer (decode_entities code) = before ++ m :: after ->
  Forall (fun m' => Py.strip (Re.group1 m') ≠ Py.strip (Re.group1 m)) after ->
  exists vars v,
    parse_code_vars (Some code) = Ok vars
    /\ vars !! Py.strip (Re.group1 m) = Some v
    /\ (Py.contains "." (Py.strip (Re.group2 m)) = true ->
        (forall f, Py.float (Py.strip (Re.group2 m)) = Ok f -> v = VFloat f)
        /\ (Py.float (Py.strip (Re.group2 m)) = Raise ValueError ->
            v = VStr (Py.strip (Re.group2 m))))
    /\ (Py.contains "." (Py.strip (Re.group2 m)) = false ->
        (forall n, Py.int (Py.strip (Re.group2 m)) = Ok n -> v = VInt n)
        /\ (Py.int (Py.strip (Re.group2 m)) = Raise ValueError ->
            v = VStr (Py.strip (Re.group2 m)))).
Proof.
  intros Hms Hafter.
  exists (fold_left store_typed (Re.finditer (decode_entities code)) ∅),
    (typed_value (Py.strip (Re.group2 m))).
  split; [apply parse_code_vars_typed|]. split.
  - rewrite Hms. apply fold_store_last, Hafter.
  - unfold typed_value. split; intros ->.
    + destruct (float_cases (Py.strip (Re.group2 m))) as [(f & Hf & ->) | [Hf ->]];
        rewrite Hf; split; congruence.
    + destruct (int_cases (Py.strip (Re.group2 m))) as [(n & Hn & ->) | [Hn ->]];
        rewrite Hn; split; congruence.
Qed.

Lemma stored_value_is_coerced_witness :
  exists vars v,
    parse_code_vars (Some "speed = 1.5") = Ok vars
    /\ vars !! Py.strip (Re.group1 speed_match) = Some v
    /\ (Py.contains "." (Py.strip (Re.group2 speed_match)) = true ->
        (forall f, Py.float (Py.strip (Re.group2 speed_match)) = Ok f -> v = VFloat f)
        /\ (Py.float (Py.strip (Re.group2 speed_match)) = Raise ValueError ->
            v = VStr (Py.strip (Re.group2 speed_match))))
    /\ (Py.contains "." (Py.strip (Re.group2 speed_match)) = false ->
        (forall n, Py.int (Py.strip (Re.group2 speed_match)) = Ok n -> v = VInt n)
        /\ (Py.int (Py.strip (Re.group2 speed_match)) = Raise ValueError ->
            v = VStr (Py.strip (Re.group2 speed_match)))).
Proof.
  apply (stored_value_is_coerced "speed = 1.5" [] [] speed_match).
  - vm_compute. reflexivity.
  - constructor.
Defined.

(** A name of the mapping holds the value of the last match of that
    name. *)
Lemma fold_store_lookup_last (ms : list Re.found) (vars : gmap string pyval)
    (name : string) (v : pyval) :
  fold_left store_typed ms vars !! name = Some v ->
  (vars !! name = Some v
   /\ Forall (fun m' => Py.strip (Re.group1 m') ≠ name) ms)
  \/ exists before m after,
       ms = before ++ m :: after
       /\ Forall (fun m' => Py.strip (Re.group1 m') ≠ name) after
       /\ name = Py.strip (Re.group1 m)
       /\ v = typed_value (Py.strip (Re.group2 m)).
Proof.
  induction ms as [|x l IH] using rev_ind; [left; split; [assumption | constructor]|].
  rewrite fold_left_app. cbn [fold_left]. unfold store_typed at 1.
  destruct (decide (Py.strip (Re.group1 x) = name)) as [E|E].
  - rewrite E, lookup_insert_eq. intros [= <-]. right.
    exists l, x, []. repeat split; [constructor | congruence].
  - rewrite lookup_insert_ne by exact E. intros H.
    apply IH in H as [[Hv Hl] | (before & m & after & -> & Hafter & Hm)].
    + left. split; [exact Hv|]. apply Forall_app. split; [exact Hl|].
      constructor; [exact E | constructor].
    + right. exists before, m, (after ++ [x]). split.
      * rewrite <- app_assoc. reflexivity.
      * split; [|exact Hm]. apply Forall_app. split; [exact Hafter|].
        constructor; [exact E | constructor].
Qed.

(** What the [try] block yields, or the text when it raises, is the typed
    value. *)
Lemma try_number_typed_value (value : string) (v : pyval) :
  try_number value = Ok v
  \/ try_number value = Raise ValueError /\ v = VStr value ->
  v = typed_value value.
Proof.
  pose proof (coerce_typed_value value) as H. unfold coerce in H.
  intros [E | [E ->]]; rewrite E in H; congruence.
Qed.

(** C7: the parser returns a mapping for every input, [None] and the empty
    string included, for which the mapping is empty.  The mapping has an
    entry exactly for the names the pattern matched; the entry of a name
    holds, for the last match of that name, the number its trimmed text
    denotes or, when the text denotes none, that text. *)
Theorem parse_code_vars_never_raises (code : option string) :
  exists vars,
    parse_code_vars code = Ok vars
    /\ (code = None \/ code = Some "" -> vars = ∅)
    /\ forall name v,
         vars !! name = Some v <->
         exists before m after,
           Re.finditer (decode_entities (default "" code)) = before ++ m :: after
           /\ Forall (fun m' => Py.strip (Re.group1 m') ≠ name) after
           /\ name = Py.strip (Re.group1 m)
           /\ (try_number (Py.strip (Re.group2 m)) = Ok v
               \/ try_number (Py.strip (Re.group2 m)) = Raise ValueError
                  /\ v = VStr (Py.strip (Re.group2 m))).
Proof.
  destruct code as [code|].
  - exists (fold_left store_typed (Re.finditer (decode_entities code)) ∅).
    split; [apply parse_code_vars_typed|]. split.
    + intros [H|H]; [discriminate|]. injection H as ->. reflexivity.
    + intros name v. change (default "" (Some code)) with code. split.
      * intros H. apply fold_store_lookup_last in H
          as [[H _] | (before & m & after & Hms & Hafter & -> & ->)].
        -- rewrite lookup_empty in H. discriminate.
        -- exists before, m, after. repeat split; [exact Hms | exact Hafter |].
           destruct (coerce_cases (Py.strip (Re.group2 m))) as (v & Hv & Hcases).
           rewrite coerce_typed_value in Hv. injection Hv as ->. exact Hcases.
      * intros (before & m & after & Hms & Hafter & -> & Hv).
        rewrite Hms, (try_number_typed_value _ _ Hv).
        apply fold_store_last, Hafter.
  - exists ∅. split; [reflexivity|]. split; [reflexivity|].
    intros name v. split.
    + rewrite lookup_empty. discriminate.
    + intros (before & m & after & Hms & _). cbv in Hms.
      destruct before; discriminate.
Qed.

(** The script [a = xyz]: the parser returns the one entry of [a], the
    text [xyz]. *)
Lemma parse_code_vars_never_raises_witness :
  exists vars,
    parse_code_vars (Some "a = xyz") = Ok vars /\ vars !! "a" = Some (VStr "xyz").
Proof.
  destruct (parse_code_vars_never_raises (Some "a = xyz")) as (vars & Hvars & _ & H).
  exists vars. split; [exact Hvars|]. apply H.
  exists [], {| Re.group1 := "a"; Re.group2 := "xyz"; Re.after := "" |}, [].
  split; [vm_compute; reflexivity|]. split; [constructor|].
  split; [reflexivity|]. right. split; vm_compute; reflexivity.
Defined.

(** ** Scripts that end in an assignment without a value *)

Lemma word_not_space (c : ascii) : Py.is_word c = true -> Py.isspace c = false.
Proof. by_bits c. Qed.


Lemma word_not_amp (c : ascii) : Py.is_word c = true -> differs "&" c = true.
Proof. by_bits c. Qed.

Lemma blank_space (c : ascii) : is_blank c = true -> Py.isspace c = true.
Proof. by_bits c. Qed.


Lemma blank_not_word (c : ascii) : is_blank c = true -> Py.is_word c = false.
Proof. by_bits c. Qed.


Lemma blank_not_amp (c : ascii) : is_blank c = true -> differs "&" c = true.
Proof. by_bits c. Qed.


Lemma line_break_not_amp (c : ascii) : is_line_break c = true -> differs "&" c = true.
Proof. by_bits c. Qed.

Lemma line_break_not_text (c : ascii) :
  is_line_break c = true -> Re.not_newline c = false.
Proof. by_bits c. Qed.

(** Replacing a text whose first character does not occur changes
    nothing. *)
Lemma replace_absent (a : ascii) (old new s : string) :
  all_chars (differs a) s = true -> Py.replace (String a old) new s = s.
Proof.
  unfold Py.replace. induction s as [|c s IH]; [reflexivity|].
  simpl. intros H. apply andb_true_iff in H as [Hc Hs].
  unfold differs in Hc. destruct (ascii_dec a c); [discriminate|].
  rewrite (IH Hs). reflexivity.
Qed.

Lemma decode_entities_plain (s : string) :
  all_chars (differs "&") s = true -> decode_entities s = s.
Proof.
  intros H. unfold decode_entities, entity_cr, entity_lf.
  rewrite (replace_absent "&" _ _ s H). apply replace_absent, H.
Qed.



Lemma rstrip_none (sp : ascii -> bool) (s : string) :
  all_chars (fun c => negb (sp c)) s = true -> Py.rstrip_by sp s = s.
Proof.
  induction s as [|c s IH]; [reflexivity|]. simpl. intros H.
  apply andb_true_iff in H as [Hc Hs]. apply negb_true_iff in Hc.
  rewrite (IH Hs), Hc. destruct s; reflexivity.
Qed.

Lemma strip_none (sp : ascii -> bool) (s : string) :
  all_chars (fun c => negb (sp c)) s = true -> Py.strip_by sp s = s.
Proof.
  intros H. unfold Py.strip_by.
  replace (Py.lstrip_by sp s) with s; [apply rstrip_none, H|].
  destruct s as [|c s]; [reflexivity|]. simpl in *.
  apply andb_true_iff in H as [Hc _]. apply negb_true_iff in Hc.
  rewrite Hc. reflexivity.
Qed.








Lemma starts_in_after_blanks (ws rest : string) :
  all_chars is_blank ws = true ->
  starts_in Py.is_word (ws +:+ String "=" rest) = false.
Proof.
  destruct ws as [|c ws]; [reflexivity|]. simpl. intros H.
  apply andb_true_iff in H as [Hc _]. apply blank_not_word, Hc.
Qed.


Lemma script_plain (name ws tail : string) :
  all_chars Py.is_word name = true ->
  all_chars is_blank ws = true ->
  all_chars (differs "&") tail = true ->
  all_chars (differs "&") (name +:+ ws +:+ String "=" tail) = true.
Proof.
  intros Hname Hws Htail. rewrite !all_chars_app. simpl.
  rewrite (all_chars_impl _ _ name word_not_amp Hname).
  rewrite (all_chars_impl _ _ ws blank_not_amp Hws). rewrite Htail. reflexivity.
Qed.


Lemma line_break_not_word (c : ascii) : is_line_break c = true -> Py.is_word c = false.
Proof. by_bits c. Qed.

Lemma match_here_nonword (s : string) :
  starts_in Py.is_word s = false -> Re.match_here s = None.
Proof.
  intros Hs. destruct (Re.match_here s) as [m|] eqn:E; [|reflexivity].
  unfold Re.match_here in E.
  apply rep_Some in E as (g1 & s1 & -> & Hg1 & Hlen & _).
  destruct g1 as [|c g1]; [simpl in Hlen; lia|].
  simpl in Hg1, Hs. apply andb_true_iff in Hg1 as [Hc _]. congruence.
Qed.

(** The scan passes over text without word characters. *)
Lemma finditer_skip_nonword (u v : string) :
  all_chars (fun c => negb (Py.is_word c)) u = true ->
  Re.finditer (u +:+ v) = Re.finditer v.
Proof.
  unfold Re.finditer. induction u as [|c u IH]; [reflexivity|]. intros H.
  simpl in H. apply andb_true_iff in H as [Hc Hu]. apply negb_true_iff in Hc.
  rewrite app_cons. cbn [Re.finditer_from].
  rewrite match_here_nonword by exact Hc. apply IH, Hu.
Qed.

Lemma starts_in_app (p : ascii -> bool) (u v : string) :
  u ≠ "" -> starts_in p (u +:+ v) = starts_in p u.
Proof. destruct u; [congruence | reflexivity]. Qed.

Lemma starts_in_breaks (brk rest : string) :
  all_chars is_line_break brk = true ->
  brk ≠ "" \/ rest = "" ->
  starts_in Re.not_newline (brk +:+ rest) = false.
Proof.
  intros Hbrk Hor. destruct brk as [|c brk].
  - destruct Hor as [?| ->]; [congruence | reflexivity].
  - simpl in Hbrk. apply andb_true_iff in Hbrk as [Hc _].
    simpl. apply line_break_not_text, Hc.
Qed.

(** The unpacked conditions of a well-formed line. *)
Lemma well_formed_unfold (a : assignment) :
  well_formed a = true ->
  a_name a ≠ "" /\ all_chars Py.is_word (a_name a) = true
  /\ all_chars is_blank (a_gap a) = true /\ all_chars is_blank (a_pad a) = true
  /\ a_value a ≠ "" /\ starts_in Py.isspace (a_value a) = false
  /\ all_chars Re.not_newline (a_value a) = true
  /\ all_chars (differs "&") (a_value a) = true
  /\ all_chars is_line_break (a_break a) = true.
Proof.
  unfold well_formed. rewrite !andb_true_iff, !negb_true_iff.
  intros [[[[[[[[H1 H2] H3] H4] H5] H6] H7] H8] H9].
  repeat split; try assumption.
  - destruct (a_name a); [discriminate | discriminate].
  - destruct (a_value a); [discriminate | discriminate].
Qed.

(** The match of a well-formed line: its name and its value, up to the
    line breaks. *)
Lemma match_here_assignment (a : assignment) (rest : string) :
  well_formed a = true ->
  a_break a ≠ "" \/ rest = "" ->
  Re.match_here
    (a_name a +:+ a_gap a +:+
     String "=" (a_pad a +:+ a_value a +:+ a_break a +:+ rest))
  = Some {| Re.group1 := a_name a; Re.group2 := a_value a;
            Re.after := a_break a +:+ rest |}.
Proof.
  intros Hwf Hor.
  apply well_formed_unfold in Hwf
    as (Hn & Hname & Hgap & Hpad & Hv & Hstart & Hvalue & _ & Hbrk).
  unfold Re.match_here. apply rep_longest.
  - exact Hname.
  - destruct (a_name a); [congruence | simpl; lia].
  - apply starts_in_after_blanks, Hgap.
  - apply rep_longest.
    + revert Hgap. apply all_chars_impl, blank_space.
    + lia.
    + reflexivity.
    + unfold Re.lit. destruct (ascii_dec "=" "=") as [_|Hne]; [|congruence].
      apply rep_longest.
      * revert Hpad. apply all_chars_impl, blank_space.
      * lia.
      * rewrite starts_in_app by exact Hv. exact Hstart.
      * apply rep_longest.
        -- exact Hvalue.
        -- destruct (a_value a); [congruence | simpl; lia].
        -- apply starts_in_breaks; assumption.
        -- reflexivity.
Qed.

Lemma finditer_render (lines : list assignment) :
  well_formed_script lines = true -> Re.finditer (render lines) = matches_of lines.
Proof.
  induction lines as [|a lines IH]; [reflexivity|]. cbn [well_formed_script].
  rewrite !andb_true_iff. intros [[Hwf Hlast] Hrest].
  assert (a_break a ≠ "" \/ render lines = "") as Hor.
  { destruct lines; [right; reflexivity|]. left.
    apply negb_true_iff in Hlast. destruct (a_break a); [discriminate | discriminate]. }
  pose proof (match_here_assignment a (render lines) Hwf Hor) as Hm.
  pose proof (well_formed_unfold a Hwf) as (Hn & _ & _ & _ & _ & _ & _ & _ & Hbrk).
  cbn [render matches_of]. destruct (a_name a) as [|c name'] eqn:En; [congruence|].
  assert (String c name' +:+ a_gap a +:+
          String "=" (a_pad a +:+ a_value a +:+ a_break a +:+ render lines)
          = String c ((name' +:+ a_gap a +:+ String "=" (a_pad a +:+ a_value a))
                      +:+ (a_break a +:+ render lines))) as E.
  { rewrite !app_cons, !app_assoc_str, app_cons, !app_assoc_str. reflexivity. }
  rewrite E in Hm |- *.
  rewrite (finditer_match c _ _ _ Hm eq_refl). f_equal.
  rewrite finditer_skip_nonword; [exact (IH Hrest)|].
  revert Hbrk. apply all_chars_impl. intros x Hx.
  rewrite (line_break_not_word x Hx). reflexivity.
Qed.

Lemma render_plain (lines : list assignment) :
  well_formed_script lines = true -> all_chars (differs "&") (render lines) = true.
Proof.
  induction lines as [|a lines IH]; [reflexivity|]. cbn [well_formed_script].
  rewrite !andb_true_iff. intros [[Hwf _] Hrest].
  apply well_formed_unfold in Hwf
    as (_ & Hname & Hgap & Hpad & _ & _ & _ & Hvalue & Hbrk).
  cbn [render]. apply script_plain; [exact Hname | exact Hgap |].
  rewrite !all_chars_app.
  rewrite (all_chars_impl _ _ _ blank_not_amp Hpad), Hvalue.
  rewrite (all_chars_impl _ _ _ line_break_not_amp Hbrk), (IH Hrest). reflexivity.
Qed.

Lemma store_matches_of (lines : list assignment) (vars : gmap string pyval) :
  well_formed_script lines = true ->
  fold_left store_typed (matches_of lines) vars
  = fold_left store_assignment lines vars.
Proof.
  revert vars. induction lines as [|a lines IH]; intros vars; [reflexivity|].
  cbn [well_formed_script]. rewrite !andb_true_iff. intros [[Hwf _] Hrest].
  apply well_formed_unfold in Hwf as (_ & Hname & _).
  cbn [matches_of fold_left]. rewrite <- (IH _ Hrest). f_equal.
  unfold store_typed, store_assignment. cbn [Re.group1 Re.group2].
  unfold Py.strip at 1. rewrite strip_none; [reflexivity|].
  revert Hname. apply all_chars_impl. intros c Hc.
  rewrite (word_not_space c Hc). reflexivity.
Qed.

(** ** An assignment without a value, after well-formed lines *)












(** ** parse_room_file, step by step *)

Lemma parse_room_file_unfold (stem : string) (root : ET.element)
    (room : RoomData.t) :
  parse_room_file stem (Some root) = Ok (Some room) ->
  exists w h acc,
    dimension (ET.find "width" root) = Ok w
    /\ dimension (ET.find "height" root) = Ok h
    /\ match ET.find "instances" root with
       | None => acc = no_collections
       | Some instances =>
           for_each add_instance (ET.findall "instance" instances) no_collections
           = Ok acc
       end
    /\ room = RoomData.mk (Py.replace ".room" "" stem) 0 w h
                (Py.contains collectibles_marker (room_code root))
                (c_spawn_points acc) (c_warps acc) (c_npcs acc) (c_shops acc)
                (c_special_objects acc).
Proof.
  unfold parse_room_file. intros H.
  apply bind_Ok in H as (w & Hw & H).
  apply bind_Ok in H as (h & Hh & H).
  destruct (ET.find "instances" root) as [instances|].
  - apply bind_Ok in H as (acc & Hacc & H). injection H as <-.
    exists w, h, acc. auto.
  - injection H as <-. exists w, h, no_collections. auto.
Qed.

(** ** The classification of the instances *)

Lemma merge_no_collections_r (c : collections) : merge c no_collections = c.
Proof. destruct c. unfold merge. simpl. rewrite !app_nil_r. reflexivity. Qed.

Lemma merge_assoc (a b c : collections) :
  merge (merge a b) c = merge a (merge b c).
Proof. unfold merge. simpl. rewrite <- !app_assoc. reflexivity. Qed.

(** One turn of the loop reads the record, then puts it where the rules
    say. *)
Lemma classify_placement (d : instance_data) (acc : collections) :
  classify (d_name d) (d_x d) (d_y d) (d_code d) (d_id d) (d_vars d) acc
  = merge acc (placement d).
Proof.
  unfold classify, placement, category_of, rules, merge.
  destruct acc as [sp wa np sh so]. cbn [first_match].
  repeat match goal with
         | |- context [if ?b then _ else _] => destruct b
         end;
    cbn [c_spawn_points c_warps c_npcs c_shops c_special_objects
         only_spawn_point no_collections];
    rewrite ?app_nil_r; reflexivity.
Qed.

Lemma add_instance_read (acc acc' : collections) (inst : ET.element) :
  add_instance acc inst = Ok acc' <->
  exists d, read_instance inst = Ok d /\ acc' = merge acc (placement d).
Proof.
  unfold add_instance, read_instance. split.
  - intros H.
    apply bind_Ok in H as (x & Hx & H). apply bind_Ok in H as (y & Hy & H).
    apply bind_Ok in H as (i & Hi & H). apply bind_Ok in H as (vars & Hv & H).
    injection H as <-. rewrite Hx, Hy, Hi, Hv. simpl.
    eexists. split; [reflexivity|]. rewrite <- classify_placement. reflexivity.
  - intros (d & H & ->).
    apply bind_Ok in H as (x & Hx & H). apply bind_Ok in H as (y & Hy & H).
    apply bind_Ok in H as (i & Hi & H). apply bind_Ok in H as (vars & Hv & H).
    injection H as <-. rewrite Hx, Hy, Hi, Hv. simpl.
    rewrite <- classify_placement. reflexivity.
Qed.

Lemma add_instances_read (insts : list ET.element) (acc acc' : collections) :
  for_each add_instance insts acc = Ok acc' ->
  exists ds, Forall2 (fun inst d => read_instance inst = Ok d) insts ds
             /\ acc' = merge acc (placements ds).
Proof.
  revert acc. induction insts as [|inst insts IH]; intros acc; simpl.
  - intros [= <-]. exists []. split; [constructor|].
    symmetry. apply merge_no_collections_r.
  - intros H. apply bind_Ok in H as (acc1 & H1 & H).
    apply add_instance_read in H1 as (d & Hd & ->).
    apply IH in H as (ds & Hds & ->). exists (d :: ds).
    split; [constructor; assumption|]. simpl. apply merge_assoc.
Qed.

Lemma placement_size (d : instance_data) : (size (placement d) <= 1)%nat.
Proof. unfold placement. destruct (category_of (d_name d)); cbv; lia. Qed.

Lemma placement_spawn_marker (d : instance_data) :
  d_name d = spawn_marker ->
  placement d = only_spawn_point (SpawnPoint.mk (d_x d) (d_y d)).
Proof. intros H. unfold placement. rewrite H. reflexivity. Qed.

(** C2: the collections of a parsed room are the placements of its
    instance records, in document order, where each record is placed by the
    first rule its name matches (spawn-point name, warp prefix, NPC prefix,
    shop names, special-object names) or dropped: a record adds at most one
    entry over the five collections, and a record named exactly
    [obj_slimepoint] adds one spawn point at its position and nothing
    else. *)
Theorem instances_classified_first_match (stem : string) (root instances : ET.element)
    (room : RoomData.t) :
  parse_room_file stem (Some root) = Ok (Some room) ->
  ET.find "instances" root = Some instances ->
  exists ds,
    Forall2 (fun inst d => read_instance inst = Ok d)
      (ET.findall "instance" instances) ds
    /\ collections_of room = placements ds
    /\ Forall (fun d =>
                 (size (placement d) <= 1)%nat
                 /\ (d_name d = spawn_marker ->
                     placement d = only_spawn_point (SpawnPoint.mk (d_x d) (d_y d))))
         ds.
Proof.
  intros H Hi. apply parse_room_file_unfold in H as (w & h & acc & _ & _ & Hacc & ->).
  rewrite Hi in Hacc. apply add_instances_read in Hacc as (ds & Hds & ->).
  exists ds. split; [exact Hds|]. split.
  - unfold collections_of, merge. simpl. destruct (placements ds); reflexivity.
  - apply Forall_forall. intros d _. split.
    + apply placement_size.
    + apply placement_spawn_marker.
Qed.

Lemma instances_classified_first_match_witness :
  exists ds,
    Forall2 (fun inst d => read_instance inst = Ok d)
      (ET.findall "instance" meadow_instances) ds
    /\ collections_of meadow_room_data = placements ds
    /\ Forall (fun d =>
                 (size (placement d) <= 1)%nat
                 /\ (d_name d = spawn_marker ->
                     placement d = only_spawn_point (SpawnPoint.mk (d_x d) (d_y d))))
         ds.
Proof.
  apply (instances_classified_first_match "meadow.room" meadow_room
           meadow_instances meadow_room_data).
  - vm_compute. reflexivity.
  - vm_compute. reflexivity.
Defined.

(** The warp built for an instance whose name starts with [warp_] takes
    [next_room], [new_x] and [new_y] from the parsed script as they are:
    nothing when the script has no entry for the variable, and otherwise
    the entry's value, whatever its type. *)
Lemma warp_fields_from_script (acc acc' : collections) (inst : ET.element) :
  add_instance acc inst = Ok acc' ->
  Py.startswith warp_prefix (default "" (ET.get "objName" inst)) = true ->
  exists vars w,
    parse_code_vars (Some (default "" (ET.get "code" inst))) = Ok vars
    /\ c_warps acc' = c_warps acc ++ [w]
    /\ Warp.warp_type w = default "" (ET.get "objName" inst)
    /\ Warp.next_room w = vars !! "next_room"
    /\ Warp.new_x w = vars !! "new_x"
    /\ Warp.new_y w = vars !! "new_y".
Proof.
  intros H Hprefix. apply add_instance_read in H as (d & Hd & ->).
  unfold read_instance in Hd.
  apply bind_Ok in Hd as (x & Hx & Hd). apply bind_Ok in Hd as (y & Hy & Hd).
  apply bind_Ok in Hd as (i & Hi & Hd). apply bind_Ok in Hd as (vars & Hv & Hd).
  injection Hd as <-. exists vars. unfold placement, category_of, rules, first_match.
  cbn [d_name d_x d_y d_code d_id d_vars]. rewrite Hprefix.
  destruct (String.eqb_spec (default "" (ET.get "objName" inst)) spawn_marker) as [E|_].
  - rewrite E in Hprefix. discriminate.
  - eexists. split; [exact Hv|]. cbn. repeat split; reflexivity.
Qed.

(** C6: the code breaks the claim.  The script of the warp gives
    [next_room] a value that is not numeric, [rm_town]; the warp's
    [next_room], which the data class declares an optional integer, is that
    text and not unset, and the text is what the output of the run holds
    for it.  The two variables the script does not have are unset. *)
Theorem warp_next_room_text :
  try_number "rm_town" = Raise ValueError
  /\ c_warps <$> from_ok (add_instance no_collections named_target_instance)
     = Some [Warp.mk 8 8 "warp_hor" (Some (VStr "rm_town")) None None
               "next_room = rm_town"]
  /\ from_ok (main None [("harbour.room", Some named_target_room)])
     ≫= at_path [Key "rooms"; Key "harbour"; Key "warps"; Index 0; Key "next_room"]
     = Some (JStr "rm_town").
Proof. repeat split; vm_compute; reflexivity. Qed.

(** C8: [has_collectibles] is true exactly when the room has a script block
    whose text contains the marker ["rm_points = 1"] somewhere: a substring
    test on the raw text, not a parse of it. *)
Theorem has_collectibles_iff_marker (stem : string) (root : ET.element)
    (room : RoomData.t) :
  parse_room_file stem (Some root) = Ok (Some room) ->
  RoomData.has_collectibles room = true
  <-> exists code_elem script before rest,
        ET.find "code" root = Some code_elem
        /\ ET.text code_elem = Some script
        /\ script = before +:+ collectibles_marker +:+ rest.
Proof.
  intros H. apply parse_room_file_unfold in H as (w & h & acc & _ & _ & _ & ->).
  cbn [RoomData.has_collectibles]. rewrite contains_spec. unfold room_code.
  split.
  - intros (before & rest & Hs).
    destruct (ET.find "code" root) as [code_elem|].
    + destruct (ET.text code_elem) as [script|] eqn:Ht; simpl in Hs.
      * exists code_elem, script, before, rest. auto.
      * destruct before; discriminate.
    + destruct before; discriminate.
  - intros (code_elem & script & before & rest & -> & Ht & Hs).
    rewrite Ht. simpl. exists before, rest. exact Hs.
Qed.

Lemma has_collectibles_iff_marker_witness :
  RoomData.has_collectibles
    (RoomData.mk "town" 0 640 480 true [] [] [] [] []) = true
  <-> exists code_elem script before rest,
        ET.find "code" collectibles_room = Some code_elem
        /\ ET.text code_elem = Some script
        /\ script = before +:+ collectibles_marker +:+ rest.
Proof.
  apply (has_collectibles_iff_marker "town.room" collectibles_room).
  vm_compute. reflexivity.
Defined.

(** C9, amended: a room document without an instance list, whose width and
    height are read without error, yields a room with five empty
    collections, index 0, the width and height read and the collectibles
    flag of its script. *)
Theorem room_without_instances (stem : string) (root : ET.element) (w h : Z) :
  ET.find "instances" root = None ->
  dimension (ET.find "width" root) = Ok w ->
  dimension (ET.find "height" root) = Ok h ->
  parse_room_file stem (Some root)
  = Ok (Some (RoomData.mk (Py.replace ".room" "" stem) 0 w h
                (Py.contains collectibles_marker (room_code root))
                [] [] [] [] [])).
Proof.
  intros Hi Hw Hh. unfold parse_room_file. rewrite Hw, Hh, Hi. reflexivity.
Qed.

Lemma room_without_instances_witness :
  parse_room_file "town.room" (Some collectibles_room)
  = Ok (Some (RoomData.mk (Py.replace ".room" "" "town.room") 0 640 480
                (Py.contains collectibles_marker (room_code collectibles_room))
                [] [] [] [] [])).
Proof.
  apply (room_without_instances "town.room" collectibles_room 640 480);
    vm_compute; reflexivity.
Defined.

(** C9 as stated fails: this document parses as markup and has no instance
    list, yet no room is returned, because its width is not a number. *)
Lemma room_without_instances_bad_width :
  ET.find "instances" bad_width_room = None
  /\ parse_room_file "cave.room" (Some bad_width_room) = Raise ValueError.
Proof. split; vm_compute; reflexivity. Qed.

(** ** The room order and the index of a name *)

Lemma enumerate_snoc {A} (l : list A) (x : A) :
  enumerate (l ++ [x]) = enumerate l ++ [(Z.of_nat (length l), x)].
Proof.
  unfold enumerate. rewrite imap_app. simpl. rewrite Nat.add_0_r. reflexivity.
Qed.

Lemma room_to_index_snoc (l : list string) (x : string) :
  room_to_index (l ++ [x]) = <[x := Z.of_nat (length l)]> (room_to_index l).
Proof.
  unfold room_to_index. rewrite enumerate_snoc, fold_left_app. reflexivity.
Qed.

(** The index stored for a name is the position of its last occurrence. *)
Lemma room_to_index_last (order : list string) (name : string) (i : Z) :
  room_to_index order !! name = Some i
  <-> exists k : nat,
        i = Z.of_nat k /\ order !! k = Some name
        /\ forall j : nat, (k < j)%nat -> order !! j ≠ Some name.
Proof.
  revert i. induction order as [|x l IH] using rev_ind; intros i.
  - unfold room_to_index. simpl. rewrite lookup_empty. split; [discriminate|].
    intros (k & _ & Hk & _). rewrite lookup_nil in Hk. discriminate.
  - rewrite room_to_index_snoc. destruct (decide (x = name)) as [->|Hne].
    + rewrite lookup_insert_eq. split.
      * intros [= <-]. exists (length l). split; [reflexivity|]. split.
        -- rewrite lookup_app_r by lia. rewrite Nat.sub_diag. reflexivity.
        -- intros j Hj. rewrite lookup_ge_None_2; [discriminate|].
           rewrite length_app. simpl. lia.
      * intros (k & -> & Hk & Hlast). f_equal. f_equal.
        destruct (decide (k < length l)%nat) as [Hlt|Hge].
        -- exfalso. apply (Hlast (length l) Hlt).
           rewrite lookup_app_r by lia. rewrite Nat.sub_diag. reflexivity.
        -- apply lookup_lt_Some in Hk. rewrite length_app in Hk. simpl in Hk. lia.
    + rewrite lookup_insert_ne by exact Hne. rewrite IH. split.
      * intros (k & -> & Hk & Hlast). exists k. split; [reflexivity|].
        split; [apply lookup_app_l_Some; exact Hk|].
        intros j Hj Hlook. apply lookup_app_Some in Hlook as [Hl | [_ Hr]].
        -- exact (Hlast j Hj Hl).
        -- destruct (j - length l)%nat; simpl in Hr; [congruence | discriminate].
      * intros (k & -> & Hk & Hlast). exists k. split; [reflexivity|].
        apply lookup_app_Some in Hk as [Hl | [_ Hr]].
        -- split; [exact Hl|]. intros j Hj Hlook.
           apply (Hlast j Hj). apply lookup_app_l_Some. exact Hlook.
        -- destruct (k - length l)%nat; simpl in Hr; [congruence | discriminate].
Qed.

(** C5, amended: the room names are the listed entries with the token
    [rooms\] removed; a name is mapped to its position in that sequence, and
    for a name listed more than once to the position of its last occurrence.
    With entries [rooms\forest] and [rooms\town] the order is forest, town
    and town has index 1. *)
Theorem room_index_is_last_position :
  (forall (project : ET.document) (name : string) (i : Z),
      room_to_index (get_room_order project) !! name = Some i
      <-> exists k : nat,
            i = Z.of_nat k /\ get_room_order project !! k = Some name
            /\ forall j : nat, (k < j)%nat -> get_room_order project !! j ≠ Some name)
  /\ get_room_order (Some forest_town_project) = ["forest"; "town"]
  /\ room_to_index (get_room_order (Some forest_town_project)) !! "town" = Some 1.
Proof.
  split; [|split].
  - intros project name i. apply room_to_index_last.
  - vm_compute. reflexivity.
  - vm_compute. reflexivity.
Qed.

(** C5 as stated fails: [forest] is listed first and third, and is mapped
    to 2, the position of its last occurrence, not to 0. *)
Lemma room_index_duplicate_last_wins :
  get_room_order (Some duplicate_project) = ["forest"; "town"; "forest"]
  /\ get_room_order (Some duplicate_project) !! 0%nat = Some "forest"
  /\ room_to_index (get_room_order (Some duplicate_project)) !! "forest" = Some 2.
Proof. repeat split; vm_compute; reflexivity. Qed.

(** ** Dictionaries in insertion order *)

Lemma dict_get_set {V} (k k' : string) (v : V) (d : list (string * V)) :
  Dict.get k (Dict.set k' v d) = if decide (k = k') then Some v else Dict.get k d.
Proof.
  induction d as [|[k0 v0] d IH]; simpl.
  - destruct (String.eqb_spec k k'); destruct (decide (k = k')); congruence.
  - destruct (String.eqb_spec k' k0) as [->|Hne]; simpl.
    + destruct (String.eqb_spec k k0); destruct (decide (k = k0)); congruence.
    + rewrite IH. destruct (String.eqb_spec k k0) as [->|]; [|reflexivity].
      destruct (decide (k0 = k')); congruence.
Qed.

Lemma dict_get_None {V} (k : string) (d : list (string * V)) :
  k ∉ d.*1 -> Dict.get k d = None.
Proof.
  induction d as [|[k0 v0] d IH]; simpl; [reflexivity|]. intros Hk.
  apply not_elem_of_cons in Hk as [Hne Hk].
  destruct (String.eqb_spec k k0); [congruence | auto].
Qed.

Lemma dict_set_keys {V} (k : string) (v : V) (d : list (string * V)) :
  forall k', k' ∈ (Dict.set k v d).*1 <-> k' = k \/ k' ∈ d.*1.
Proof.
  induction d as [|[k0 v0] d IH]; intros k'; simpl.
  - rewrite list_elem_of_singleton, elem_of_nil. tauto.
  - destruct (String.eqb_spec k k0) as [->|Hne]; simpl.
    + rewrite !elem_of_cons. tauto.
    + rewrite !elem_of_cons, IH. tauto.
Qed.

Lemma dict_set_NoDup {V} (k : string) (v : V) (d : list (string * V)) :
  NoDup d.*1 -> NoDup (Dict.set k v d).*1.
Proof.
  induction d as [|[k0 v0] d IH]; simpl; intros Hd.
  - apply NoDup_singleton.
  - apply NoDup_cons in Hd as [Hk0 Hd].
    destruct (String.eqb_spec k k0) as [->|Hne]; simpl.
    + apply NoDup_cons. auto.
    + apply NoDup_cons. split; [|auto].
      rewrite dict_set_keys. intros [?|?]; [congruence | contradiction].
Qed.

(** An invariant of the accumulator holds after a loop when each turn
    keeps it. *)
Lemma for_each_invariant {A S} (P : S -> Prop) (body : S -> A -> result S)
    (l : list A) (acc acc' : S) :
  (forall s x s', x ∈ l -> P s -> body s x = Ok s' -> P s') ->
  P acc -> for_each body l acc = Ok acc' -> P acc'.
Proof.
  revert acc. induction l as [|x l IH]; simpl; intros acc Hstep Hacc H.
  - injection H as <-. exact Hacc.
  - apply bind_Ok in H as (s & Hs & H). apply (IH s).
    + intros s0 x0 s0' Hin. apply Hstep. apply list_elem_of_further, Hin.
    + apply (Hstep acc x s); [apply list_elem_of_here | exact Hacc | exact Hs].
    + exact H.
Qed.

Lemma parse_rooms_NoDup (room_order : list string)
    (files : list (string * ET.document)) (all_rooms : list (string * RoomData.t)) :
  parse_rooms room_order files = Ok all_rooms -> NoDup all_rooms.*1.
Proof.
  unfold parse_rooms.
  apply (for_each_invariant (fun d : list (string * RoomData.t) => NoDup d.*1)).
  - intros d file d' _ Hd H. unfold add_room in H.
    apply bind_Ok in H as ([room|] & _ & H); injection H as <-.
    + apply dict_set_NoDup, Hd.
    + exact Hd.
  - apply NoDup_nil_2.
Qed.

(** Every room of [all_rooms] is what the parser returned for one of the
    files, with its index set. *)
Lemma parse_rooms_parsed (room_order : list string)
    (files : list (string * ET.document)) (all_rooms : list (string * RoomData.t))
    (name : string) (room : RoomData.t) :
  parse_rooms room_order files = Ok all_rooms ->
  Dict.get name all_rooms = Some room ->
  exists stem doc parsed,
    (stem, doc) ∈ files
    /\ parse_room_file stem doc = Ok (Some parsed)
    /\ RoomData.name parsed = name
    /\ RoomData.warps parsed = RoomData.warps room.
Proof.
  unfold parse_rooms. intros H Hget.
  pose (P := fun d : list (string * RoomData.t) =>
               forall name room, Dict.get name d = Some room ->
                 exists stem doc parsed,
                   (stem, doc) ∈ files
                   /\ parse_room_file stem doc = Ok (Some parsed)
                   /\ RoomData.name parsed = name
                   /\ RoomData.warps parsed = RoomData.warps room).
  assert (P all_rooms) as HP; [|exact (HP name room Hget)]. clear name room Hget.
  apply (for_each_invariant P (add_room (room_to_index room_order)) files []).
  - intros d [stem doc] d' Hin Hd Hstep name room Hget. unfold add_room in Hstep.
    apply bind_Ok in Hstep as ([parsed|] & Hparsed & Hstep); injection Hstep as <-.
    + rewrite dict_get_set in Hget. cbn [RoomData.set_room_index RoomData.name] in Hget.
      destruct (decide (name = RoomData.name parsed)) as [->|_]; [|apply Hd, Hget].
      injection Hget as <-. exists stem, doc, parsed. auto.
    + apply Hd, Hget.
  - intros name room Hget. discriminate.
  - exact H.
Qed.

(** The [rooms] object of the output holds, under each name, the record of
    the room of that name. *)
Lemma output_rooms_get {V W} (f : V -> W) (name : string)
    (items : list (string * V)) (acc : list (string * W)) :
  NoDup items.*1 ->
  Dict.get name (fold_left (fun d '(k, v) => Dict.set k (f v) d) items acc)
  = match Dict.get name items with
    | Some v => Some (f v)
    | None => Dict.get name acc
    end.
Proof.
  revert acc. induction items as [|[k v] items IH]; intros acc Hnd; simpl.
  - reflexivity.
  - apply NoDup_cons in Hnd as [Hk Hnd]. rewrite IH by exact Hnd.
    rewrite dict_get_set.
    destruct (String.eqb_spec name k) as [->|Hne].
    + rewrite dict_get_None by exact Hk. rewrite decide_True by reflexivity.
      reflexivity.
    + rewrite decide_False by exact Hne. reflexivity.
Qed.

(** C1: a warp of a room of the run whose [next_room] is an integer has
    that same integer in the [next_room] field of its record in the
    output, whether or not the integer is an index of the room order; out
    of range, only the target name of the printed summary changes, to a
    placeholder. *)
Theorem next_room_passed_through (project : ET.document)
    (files : list (string * ET.document)) (all_rooms : list (string * RoomData.t))
    (name : string) (room : RoomData.t) (i : nat) (w : Warp.t) (n : Z) :
  parse_rooms (get_room_order project) files = Ok all_rooms ->
  Dict.get name all_rooms = Some room ->
  RoomData.warps room !! i = Some w ->
  Warp.next_room w = Some (VInt n) ->
  (exists stem doc parsed,
      (stem, doc) ∈ files
      /\ parse_room_file stem doc = Ok (Some parsed)
      /\ RoomData.name parsed = name
      /\ RoomData.warps parsed !! i = Some w)
  /\ (exists output,
         main project files = Ok output
         /\ at_path [Key "rooms"; Key name; Key "warps"; Index i; Key "next_room"]
              output = Some (JInt n))
  /\ (n < 0 \/ Z.of_nat (length (get_room_order project)) <= n ->
      target_name (get_room_order project) n = "room_" +:+ show_int n).
Proof.
  intros Hrooms Hroom Hw Hn. split; [|split].
  - destruct (parse_rooms_parsed _ _ _ _ _ Hrooms Hroom)
      as (stem & doc & parsed & Hin & Hparsed & Hname & Hwarps).
    exists stem, doc, parsed. rewrite Hwarps. auto.
  - exists (build_output (get_room_order project) all_rooms). split.
    + unfold main. rewrite Hrooms. reflexivity.
    + unfold build_output. cbn -[json_of_room fold_left].
      rewrite (output_rooms_get json_of_room).
      * rewrite Hroom. cbn -[json_of_warp].
        rewrite list_lookup_fmap, Hw. cbn. rewrite Hn. reflexivity.
      * eapply parse_rooms_NoDup, Hrooms.
  - intros Hrange. unfold target_name.
    destruct (0 <=? n) eqn:H0; destruct (n <? Z.of_nat (length (get_room_order project))) eqn:H1;
      simpl; try reflexivity. lia.
Qed.

Lemma next_room_passed_through_witness :
  (exists stem doc parsed,
      (stem, doc) ∈ [("cave.room", Some warp_room)]
      /\ parse_room_file stem doc = Ok (Some parsed)
      /\ RoomData.name parsed = "cave"
      /\ RoomData.warps parsed !! 0%nat
         = Some (Warp.mk 16 32 "warp_vert" (Some (VInt 7)) (Some (VInt 100))
                   (Some (VInt 50))
                   "next_room = 7&#13;&#10;new_x = 100&#13;&#10;new_y = 50"))
  /\ (exists output,
      main (Some forest_town_project) [("cave.room", Some warp_room)] = Ok output
      /\ at_path [Key "rooms"; Key "cave"; Key "warps"; Index 0; Key "next_room"]
           output = Some (JInt 7))
  /\ (7 < 0 \/ Z.of_nat (length (get_room_order (Some forest_town_project))) <= 7 ->
      target_name (get_room_order (Some forest_town_project)) 7
      = "room_" +:+ show_int 7).
Proof.
  eapply (next_room_passed_through (Some forest_town_project)
            [("cave.room", Some warp_room)] _ "cave" _ 0 _ 7).
  - vm_compute. reflexivity.
  - vm_compute. reflexivity.
  - vm_compute. reflexivity.
  - vm_compute. reflexivity.
Defined.

(** ** The run over a batch of room documents *)

Lemma is_ok_Ok {A} (r : result A) : is_ok r = true -> exists a, r = Ok a.
Proof. destruct r as [a|e]; [eauto | discriminate]. Qed.

Lemma add_instance_ok (acc : collections) (inst : ET.element) :
  is_ok (coordinate "x" inst) && is_ok (coordinate "y" inst)
  && is_ok (identifier inst) = true ->
  exists acc', add_instance acc inst = Ok acc'.
Proof.
  intros H. apply andb_true_iff in H as [H Hi]. apply andb_true_iff in H as [Hx Hy].
  apply is_ok_Ok in Hx as (x & Hx). apply is_ok_Ok in Hy as (y & Hy).
  apply is_ok_Ok in Hi as (i & Hi).
  unfold add_instance. rewrite Hx, Hy, Hi.
  cbv beta iota delta [mbind result_bind bind].
  rewrite parse_code_vars_typed. eauto.
Qed.

Lemma add_instances_ok (insts : list ET.element) (acc : collections) :
  forallb (fun inst => is_ok (coordinate "x" inst) && is_ok (coordinate "y" inst)
                       && is_ok (identifier inst)) insts = true ->
  exists acc', for_each add_instance insts acc = Ok acc'.
Proof.
  revert acc. induction insts as [|inst insts IH]; intros acc; simpl.
  - eauto.
  - intros H. apply andb_true_iff in H as [H1 H].
    destruct (add_instance_ok acc inst H1) as (acc1 & ->). simpl. apply IH, H.
Qed.

Lemma parse_room_file_ok (stem : string) (root : ET.element) :
  numeric_fields_ok root = true ->
  exists room, parse_room_file stem (Some root) = Ok (Some room).
Proof.
  unfold numeric_fields_ok. intros H.
  apply andb_true_iff in H as [H Hi]. apply andb_true_iff in H as [Hw Hh].
  apply is_ok_Ok in Hw as (w & Hw). apply is_ok_Ok in Hh as (h & Hh).
  unfold parse_room_file. rewrite Hw, Hh. simpl.
  destruct (ET.find "instances" root) as [instances|]; [|eauto].
  destruct (add_instances_ok _ no_collections Hi) as (acc & ->). simpl. eauto.
Qed.

Lemma add_room_unparsed (index : gmap string Z)
    (all_rooms : list (string * RoomData.t)) (stem : string) :
  add_room index all_rooms (stem, None) = Ok all_rooms.
Proof. reflexivity. Qed.

Lemma parse_rooms_ok (room_order : list string)
    (files : list (string * ET.document)) :
  (forall stem root, (stem, Some root) ∈ files -> numeric_fields_ok root = true) ->
  exists all_rooms, parse_rooms room_order files = Ok all_rooms.
Proof.
  unfold parse_rooms. generalize (@nil (string * RoomData.t)).
  induction files as [|[stem doc] files IH]; intros acc Hok; simpl; [eauto|].
  assert (exists acc1, add_room (room_to_index room_order) acc (stem, doc) = Ok acc1)
    as (acc1 & ->).
  { destruct doc as [root|]; [|eauto using add_room_unparsed].
    destruct (parse_room_file_ok stem root) as (room & Hroom).
    - apply (Hok stem). apply list_elem_of_here.
    - unfold add_room. cbn [fst snd]. rewrite Hroom.
      cbv beta iota delta [mbind result_bind bind]. eauto. }
  simpl. apply IH. intros stem' root' Hin. apply (Hok stem').
  apply list_elem_of_further, Hin.
Qed.

(** The loop over the instances ends well exactly when every conversion
    does. *)
Lemma add_instance_is_ok (acc : collections) (inst : ET.element) :
  is_ok (add_instance acc inst)
  = is_ok (coordinate "x" inst) && is_ok (coordinate "y" inst)
    && is_ok (identifier inst).
Proof.
  unfold add_instance.
  destruct (coordinate "x" inst) as [x|ex]; [|reflexivity].
  destruct (coordinate "y" inst) as [y|ey]; [|reflexivity].
  destruct (identifier inst) as [i|ei]; [|reflexivity].
  cbv beta iota delta [mbind result_bind bind].
  rewrite parse_code_vars_typed. reflexivity.
Qed.

Lemma add_instances_is_ok (insts : list ET.element) (acc : collections) :
  is_ok (for_each add_instance insts acc)
  = forallb (fun inst => is_ok (coordinate "x" inst) && is_ok (coordinate "y" inst)
                         && is_ok (identifier inst)) insts.
Proof.
  revert acc. induction insts as [|inst insts IH]; intros acc; [reflexivity|].
  cbn [for_each forallb]. rewrite <- (add_instance_is_ok acc inst).
  destruct (add_instance acc inst) as [acc1|e]; [apply IH | reflexivity].
Qed.

Lemma parse_room_file_is_ok (stem : string) (root : ET.element) :
  is_ok (parse_room_file stem (Some root)) = numeric_fields_ok root.
Proof.
  unfold parse_room_file, numeric_fields_ok.
  destruct (dimension (ET.find "width" root)) as [w|ew]; [|reflexivity].
  destruct (dimension (ET.find "height" root)) as [h|eh]; [|reflexivity].
  cbv beta iota delta [mbind result_bind bind is_ok andb].
  destruct (ET.find "instances" root) as [instances|]; [|reflexivity].
  rewrite <- (add_instances_is_ok _ no_collections).
  destruct (for_each add_instance (ET.findall "instance" instances) no_collections);
    reflexivity.
Qed.

Lemma add_room_is_ok (index : gmap string Z) (acc : list (string * RoomData.t))
    (stem : string) (doc : ET.document) :
  is_ok (add_room index acc (stem, doc)) = from_option numeric_fields_ok true doc.
Proof.
  destruct doc as [root|]; [|reflexivity].
  cbn [from_option]. rewrite <- (parse_room_file_is_ok stem root).
  unfold add_room. cbn [fst snd].
  destruct (parse_room_file stem (Some root)) as [[room|]|e]; reflexivity.
Qed.

Lemma parse_rooms_is_ok (room_order : list string)
    (files : list (string * ET.document)) :
  is_ok (parse_rooms room_order files)
  = forallb (fun file => from_option numeric_fields_ok true file.2) files.
Proof.
  unfold parse_rooms. generalize (@nil (string * RoomData.t)).
  induction files as [|[stem doc] files IH]; intros acc; [reflexivity|].
  cbn [for_each forallb snd]. rewrite <- (add_room_is_ok (room_to_index room_order) acc stem).
  destruct (add_room (room_to_index room_order) acc (stem, doc)) as [acc1|e];
    [apply IH | reflexivity].
Qed.

(** C4, amended: a document that does not parse as markup makes the
    parser return its failure signal and is skipped, the run going on as if
    the document were not there.  The run reaches its output exactly when,
    in every document that does parse, every conversion of a numeric field
    succeeds: [int()] of the width and of the height, [int(float())] of the
    [x] and [y] of each instance, [int()] of its [id]. *)
Theorem unparsed_documents_are_skipped :
  (forall stem, parse_room_file stem None = Ok None)
  /\ (forall room_order before stem after,
         parse_rooms room_order (before ++ (stem, None) :: after)
         = parse_rooms room_order (before ++ after))
  /\ (forall project files,
         (exists output, main project files = Ok output)
         <-> (forall stem root,
                 (stem, Some root) ∈ files -> numeric_fields_ok root = true)).
Proof.
  split; [reflexivity|]. split.
  - intros room_order before stem after. unfold parse_rooms.
    rewrite !for_each_app.
    destruct (for_each (add_room (room_to_index room_order)) before []); reflexivity.
  - intros project files. unfold main.
    pose proof (parse_rooms_is_ok (get_room_order project) files) as Hok.
    split.
    + intros (output & H) stem root Hin.
      destruct (parse_rooms (get_room_order project) files) as [all_rooms|e];
        [|discriminate].
      symmetry in Hok. cbn [is_ok] in Hok. rewrite forallb_forall in Hok.
      apply list_elem_of_In in Hin. exact (Hok _ Hin).
    + intros Hall.
      destruct (parse_rooms_ok (get_room_order project) files Hall) as (all_rooms & ->).
      simpl. eauto.
Qed.

(** C4 as stated fails: the second document parses as markup, but its
    width is not a number; the conversion raises and the run ends without
    an output, although the first document is a good one. *)
Lemma bad_width_ends_the_run :
  is_ok (main (Some forest_town_project) [("town.room", Some collectibles_room)])
  = true
  /\ main (Some forest_town_project)
       [("town.room", Some collectibles_room); ("cave.room", Some bad_width_room)]
     = Raise ValueError.
Proof. split; vm_compute; reflexivity. Qed.

(** * Further properties *)

(** ** The catalogues of names *)

Lemma classify_shop (n : string) (x y : Z) (code : string) (inst_id : Z)
    (vars : gmap string pyval) (acc : collections) :
  n ∈ shop_names ->
  classify n x y code inst_id vars acc
  = {| c_spawn_points := c_spawn_points acc; c_warps := c_warps acc;
       c_npcs := c_npcs acc;
       c_shops := c_shops acc ++ [Instance.mk n x y code inst_id];
       c_special_objects := c_special_objects acc |}.
Proof.
  unfold shop_names. intros H.
  repeat (apply elem_of_cons in H as [-> | H]; [reflexivity|]).
  apply elem_of_nil in H. contradiction.
Qed.

Lemma classify_special (n : string) (x y : Z) (code : string) (inst_id : Z)
    (vars : gmap string pyval) (acc : collections) :
  n ∈ special_names ->
  classify n x y code inst_id vars acc
  = {| c_spawn_points := c_spawn_points acc; c_warps := c_warps acc;
       c_npcs := c_npcs acc; c_shops := c_shops acc;
       c_special_objects :=
         c_special_objects acc ++ [Instance.mk n x y code inst_id] |}.
Proof.
  unfold special_names. intros H.
  repeat (apply elem_of_cons in H as [-> | H]; [reflexivity|]).
  apply elem_of_nil in H. contradiction.
Qed.

(** X1: no catalogued name is shadowed by an earlier rule: an instance
    named by one of the three shop names is appended to the shops, one
    named by one of the special-object names to the special objects, each
    as a record of its name, position, script and identifier, and the other
    collections are left as they were. *)
Theorem catalogued_names_are_kept (n : string) (x y : Z) (code : string)
    (inst_id : Z) (vars : gmap string pyval) (acc : collections) :
  (n ∈ shop_names ->
   classify n x y code inst_id vars acc
   = {| c_spawn_points := c_spawn_points acc; c_warps := c_warps acc;
        c_npcs := c_npcs acc;
        c_shops := c_shops acc ++ [Instance.mk n x y code inst_id];
        c_special_objects := c_special_objects acc |})
  /\ (n ∈ special_names ->
      classify n x y code inst_id vars acc
      = {| c_spawn_points := c_spawn_points acc; c_warps := c_warps acc;
           c_npcs := c_npcs acc; c_shops := c_shops acc;
           c_special_objects :=
             c_special_objects acc ++ [Instance.mk n x y code inst_id] |}).
Proof. split; [apply classify_shop | apply classify_special]. Qed.

(** ** What the room parser returns *)

(** X2: the parser returns its failure signal only for a document that
    did not parse as markup: for one that did, it returns a room or raises,
    and never skips it silently. *)
Theorem failure_signal_iff_unparsed (stem : string) (doc : ET.document) :
  parse_room_file stem doc = Ok None <-> doc = None.
Proof.
  split; [|intros ->; reflexivity].
  destruct doc as [root|]; [|reflexivity]. unfold parse_room_file. intros H.
  apply bind_Ok in H as (w & _ & H). apply bind_Ok in H as (h & _ & H).
  destruct (ET.find "instances" root).
  - apply bind_Ok in H as (acc & _ & H). discriminate.
  - discriminate.
Qed.

Lemma size_merge (a b : collections) : size (merge a b) = (size a + size b)%nat.
Proof.
  unfold size, merge. simpl. rewrite !length_app.
  generalize (length (c_spawn_points a)) (length (c_spawn_points b))
    (length (c_warps a)) (length (c_warps b)) (length (c_npcs a))
    (length (c_npcs b)) (length (c_shops a)) (length (c_shops b))
    (length (c_special_objects a)) (length (c_special_objects b)).
  intros. lia.
Qed.

Lemma placements_size (ds : list instance_data) :
  (size (placements ds) <= length ds)%nat.
Proof.
  induction ds as [|d ds IH]; simpl; [reflexivity|].
  rewrite size_merge. pose proof (placement_size d). lia.
Qed.

(** X3: the five collections of a room hold, together, at most as many
    records as the document has instance records: no instance is recorded
    twice, and a document without an instance list gives none. *)
Theorem room_records_bounded (stem : string) (root : ET.element)
    (room : RoomData.t) :
  parse_room_file stem (Some root) = Ok (Some room) ->
  (size (collections_of room) <= length (instance_records root))%nat.
Proof.
  intros H. apply parse_room_file_unfold in H as (w & h & acc & _ & _ & Hacc & ->).
  unfold instance_records. destruct (ET.find "instances" root) as [instances|].
  - apply add_instances_read in Hacc as (ds & Hds & ->).
    apply Forall2_length in Hds. rewrite Hds.
    replace (collections_of _) with (merge no_collections (placements ds))
      by (unfold collections_of, merge; simpl; destruct (placements ds); reflexivity).
    rewrite size_merge. pose proof (placements_size ds). simpl. lia.
  - subst acc. cbv. lia.
Qed.

Lemma room_records_bounded_witness :
  (size (collections_of meadow_room_data) <= length (instance_records meadow_room))%nat.
Proof.
  apply (room_records_bounded "meadow.room" meadow_room meadow_room_data).
  vm_compute. reflexivity.
Defined.

Lemma add_instance_first_error (acc : collections) (inst : ET.element) (e : exn) :
  first_error inst = Some e -> add_instance acc inst = Raise e.
Proof.
  unfold first_error, add_instance. intros H.
  destruct (coordinate "x" inst) as [x|ex]; [|injection H as ->; reflexivity].
  destruct (coordinate "y" inst) as [y|ey]; [|injection H as ->; reflexivity].
  destruct (identifier inst) as [i|ei]; [discriminate|].
  injection H as ->. reflexivity.
Qed.

Lemma add_instance_no_error (acc : collections) (inst : ET.element) :
  first_error inst = None -> exists acc', add_instance acc inst = Ok acc'.
Proof.
  unfold first_error. intros H. apply add_instance_ok.
  destruct (coordinate "x" inst); [|discriminate].
  destruct (coordinate "y" inst); [|discriminate].
  destruct (identifier inst); [reflexivity | discriminate].
Qed.

Lemma add_instances_no_error (insts : list ET.element) (acc : collections) :
  Forall (fun i => first_error i = None) insts ->
  exists acc', for_each add_instance insts acc = Ok acc'.
Proof.
  intros H. revert acc. induction H as [|i insts Hi _ IH]; intros acc; simpl.
  - eauto.
  - destruct (add_instance_no_error acc i Hi) as (acc1 & ->). apply IH.
Qed.

(** X4: when the width and the height are read, the parser raises the
    exception of the first instance record, in document order, whose [x],
    [y] or [id] does not convert to a number, whatever the name of that
    record: also a record that no rule would keep is converted first. *)
Theorem first_bad_instance_raises (stem : string) (root : ET.element)
    (before after : list ET.element) (inst : ET.element) (w h : Z) (e : exn) :
  dimension (ET.find "width" root) = Ok w ->
  dimension (ET.find "height" root) = Ok h ->
  instance_records root = before ++ inst :: after ->
  Forall (fun i => first_error i = None) before ->
  first_error inst = Some e ->
  parse_room_file stem (Some root) = Raise e.
Proof.
  intros Hw Hh Hrec Hbefore He. unfold parse_room_file. rewrite Hw, Hh.
  cbv beta iota delta [mbind result_bind bind].
  unfold instance_records in Hrec.
  destruct (ET.find "instances" root) as [instances|];
    [|destruct before; discriminate].
  rewrite Hrec, for_each_app.
  destruct (add_instances_no_error before no_collections Hbefore) as (acc & ->).
  simpl. rewrite (add_instance_first_error acc inst e He). reflexivity.
Qed.

Lemma first_bad_instance_raises_witness :
  parse_room_file "orchard.room" (Some orchard_room) = Raise ValueError.
Proof.
  apply (first_bad_instance_raises "orchard.room" orchard_room
           [signpost_instance] [] bad_tree_instance 100 100 ValueError).
  - vm_compute. reflexivity.
  - vm_compute. reflexivity.
  - vm_compute. reflexivity.
  - repeat constructor.
  - vm_compute. reflexivity.
Defined.

(** ** Names: the stem of a room file, the entries of the project file *)

Lemma app_empty_r (s : string) : s +:+ "" = s.
Proof. induction s as [|c s IH]; [reflexivity|]. rewrite app_cons, IH. reflexivity. Qed.

Lemma startswith_all_chars (p : ascii -> bool) (old s : string) :
  Py.startswith old s = true -> all_chars p s = true -> all_chars p old = true.
Proof.
  revert s. induction old as [|a old IH]; intros s; [reflexivity|].
  destruct s as [|b s]; simpl; [discriminate|].
  destruct (ascii_dec a b) as [->|]; [|discriminate].
  intros Hst Hs. apply andb_true_iff in Hs as [-> Hs]. simpl. eauto.
Qed.

(** A text with a character that [s] does not have does not occur in
    [s]: replacing it changes nothing. *)
Lemma replace_no_occurrence (p : ascii -> bool) (old new s : string) :
  all_chars p old = false -> all_chars p s = true -> Py.replace old new s = s.
Proof.
  intros Hold. unfold Py.replace. induction s as [|c s IH]; [reflexivity|].
  intros Hs. cbn [Py.replace_from].
  destruct (Py.startswith old (String c s)) eqn:Hst.
  - rewrite (startswith_all_chars p _ _ Hst Hs) in Hold. discriminate.
  - simpl in Hs. apply andb_true_iff in Hs as [_ Hs]. rewrite (IH Hs). reflexivity.
Qed.

Lemma replace_from_skip (old new p v : string) :
  Py.replace_from old new (String.length p) (p +:+ v) = Py.replace_from old new 0 v.
Proof.
  induction p as [|c p IH]; [destruct v; reflexivity|].
  rewrite app_cons. simpl. exact IH.
Qed.

Lemma startswith_app (old v : string) : Py.startswith old (old +:+ v) = true.
Proof. apply startswith_spec. exists v. reflexivity. Qed.

(** An occurrence at the head is replaced, and the scan goes on after
    it. *)
Lemma replace_head (a : ascii) (old new v : string) :
  Py.replace (String a old) new (String a old +:+ v)
  = new +:+ Py.replace (String a old) new v.
Proof.
  unfold Py.replace. rewrite app_cons. cbn [Py.replace_from].
  rewrite <- app_cons, startswith_app. f_equal.
  replace (String.length (String a old) - 1)%nat with (String.length old)
    by (simpl; lia).
  apply replace_from_skip.
Qed.

(** Text before the first possible occurrence is copied. *)
Lemma replace_app_absent (a : ascii) (old new u v : string) :
  all_chars (differs a) u = true ->
  Py.replace (String a old) new (u +:+ v) = u +:+ Py.replace (String a old) new v.
Proof.
  unfold Py.replace. induction u as [|c u IH]; [reflexivity|].
  intros H. simpl in H. apply andb_true_iff in H as [Hc Hu].
  rewrite !app_cons. cbn [Py.replace_from]. cbn [Py.startswith].
  unfold differs in Hc. destruct (ascii_dec a c); [discriminate|].
  rewrite (IH Hu). reflexivity.
Qed.

(** X5: the room of the file [<name>.room.gmx], whose stem is
    [<name>.room], is named [<name>], for a name without a dot. *)
Theorem room_name_from_stem (name : string) (root : ET.element)
    (room : RoomData.t) :
  all_chars (differs ".") name = true ->
  parse_room_file (name +:+ ".room") (Some root) = Ok (Some room) ->
  RoomData.name room = name.
Proof.
  intros Hname H. apply parse_room_file_unfold in H as (w & h & acc & _ & _ & _ & ->).
  cbn [RoomData.name]. rewrite (replace_app_absent "." "room" "" name ".room" Hname).
  change (Py.replace ".room" "" ".room") with "". apply app_empty_r.
Qed.

Lemma room_name_from_stem_witness : RoomData.name meadow_room_data = "meadow".
Proof.
  apply (room_name_from_stem "meadow" meadow_room meadow_room_data);
    vm_compute; reflexivity.
Defined.

Lemma strip_path_prefix (name : string) :
  all_chars (differs "\") name = true ->
  Py.replace path_prefix "" (path_prefix +:+ name) = name.
Proof.
  intros H. unfold path_prefix.
  rewrite (replace_head "r" "ooms\" "" name). rewrite app_empty_l.
  apply (replace_no_occurrence (differs "\")); [reflexivity | exact H].
Qed.

Lemma room_entries_stripped (rooms : list ET.element) (names : list string) :
  map ET.text rooms = map (fun n => Some (path_prefix +:+ n)) names ->
  Forall (fun n => all_chars (differs "\") n = true) names ->
  omap (fun room =>
          match ET.text room with
          | Some (String _ _ as t) => Some (Py.replace path_prefix "" t)
          | _ => None
          end) rooms = names.
Proof.
  revert names. induction rooms as [|room rooms IH]; intros [|n names] Hmap Hnames;
    try discriminate; [reflexivity|].
  simpl in Hmap. injection Hmap as Ht Hmap.
  apply Forall_cons in Hnames as [Hn Hnames].
  simpl. rewrite Ht. change (path_prefix +:+ n) with (String "r" ("ooms\" +:+ n)).
  change (String "r" ("ooms\" +:+ n)) with (path_prefix +:+ n).
  rewrite (strip_path_prefix n Hn). simpl. f_equal. apply IH; assumption.
Qed.

(** X6: when the entries of the project file's rooms section are
    [rooms\<name>], each name without a backslash, the room order is the
    sequence of these names, in the order of the entries. *)
Theorem room_order_is_the_entries (root rooms_elem : ET.element)
    (names : list string) :
  ET.find_descendant "rooms" "name" "rooms" root = Some rooms_elem ->
  map ET.text (ET.findall "room" rooms_elem)
  = map (fun n => Some (path_prefix +:+ n)) names ->
  Forall (fun n => all_chars (differs "\") n = true) names ->
  get_room_order (Some root) = names.
Proof.
  intros Hfind Htext Hnames. unfold get_room_order. rewrite Hfind.
  apply room_entries_stripped; assumption.
Qed.

Lemma room_order_is_the_entries_witness :
  get_room_order (Some forest_town_project) = ["forest"; "town"].
Proof.
  eapply (room_order_is_the_entries forest_town_project _ ["forest"; "town"]).
  - vm_compute. reflexivity.
  - vm_compute. reflexivity.
  - repeat constructor.
Defined.

(** ** The rooms of a run *)

Lemma room_to_index_None (order : list string) (name : string) :
  room_to_index order !! name = None <-> name ∉ order.
Proof.
  induction order as [|x l IH] using rev_ind.
  - unfold room_to_index. simpl. rewrite lookup_empty.
    split; [intros _; apply not_elem_of_nil | reflexivity].
  - rewrite room_to_index_snoc, lookup_insert_None, IH, not_elem_of_app.
    rewrite list_elem_of_singleton. split; intros [H1 H2]; split; auto.
Qed.

(** Every room of [all_rooms] is stored under its own name, with the index
    the mapping gives that name, or -1. *)
Lemma parse_rooms_index (room_order : list string)
    (files : list (string * ET.document)) (all_rooms : list (string * RoomData.t))
    (name : string) (room : RoomData.t) :
  parse_rooms room_order files = Ok all_rooms ->
  Dict.get name all_rooms = Some room ->
  RoomData.name room = name
  /\ RoomData.room_index room = default (-1) (room_to_index room_order !! name).
Proof.
  unfold parse_rooms. intros H Hget.
  pose (P := fun d : list (string * RoomData.t) =>
               forall name room, Dict.get name d = Some room ->
                 RoomData.name room = name
                 /\ RoomData.room_index room
                    = default (-1) (room_to_index room_order !! name)).
  assert (P all_rooms) as HP; [|exact (HP name room Hget)]. clear name room Hget.
  apply (for_each_invariant P (add_room (room_to_index room_order)) files []).
  - intros d [stem doc] d' _ Hd Hstep name room Hget. unfold add_room in Hstep.
    apply bind_Ok in Hstep as ([parsed|] & _ & Hstep); injection Hstep as <-.
    + rewrite dict_get_set in Hget. cbn [RoomData.set_room_index RoomData.name] in Hget.
      destruct (decide (name = RoomData.name parsed)) as [->|_]; [|apply Hd, Hget].
      injection Hget as <-. split; reflexivity.
    + apply Hd, Hget.
  - intros name room Hget. discriminate.
  - exact H.
Qed.

(** X7: every room of the run is stored under its own name, and its index
    is either -1, when the room order does not have its name, or a
    position of the room order that holds its name. *)
Theorem room_index_is_own_position (room_order : list string)
    (files : list (string * ET.document)) (all_rooms : list (string * RoomData.t))
    (name : string) (room : RoomData.t) :
  parse_rooms room_order files = Ok all_rooms ->
  Dict.get name all_rooms = Some room ->
  RoomData.name room = name
  /\ (RoomData.room_index room = -1 /\ name ∉ room_order
      \/ exists k : nat,
           RoomData.room_index room = Z.of_nat k /\ room_order !! k = Some name).
Proof.
  intros H Hget. destruct (parse_rooms_index _ _ _ _ _ H Hget) as [Hname Hindex].
  split; [exact Hname|]. rewrite Hindex.
  destruct (room_to_index room_order !! name) as [i|] eqn:Hi; simpl.
  - right. apply room_to_index_last in Hi as (k & -> & Hk & _). eauto.
  - left. split; [reflexivity|]. apply room_to_index_None, Hi.
Qed.

Lemma room_index_is_own_position_witness :
  RoomData.name town_room_data = "town"
  /\ (RoomData.room_index town_room_data = -1 /\ "town" ∉ ["forest"; "town"]
      \/ exists k : nat,
           RoomData.room_index town_room_data = Z.of_nat k
           /\ ["forest"; "town"] !! k = Some "town").
Proof.
  apply (room_index_is_own_position ["forest"; "town"] town_files
           [("town", town_room_data)] "town" town_room_data);
    vm_compute; reflexivity.
Defined.

(** X8: for a room of the run whose index is not -1, the target name the
    warp summary prints for that index is the room's own name. *)
Theorem target_name_of_room_index (room_order : list string)
    (files : list (string * ET.document)) (all_rooms : list (string * RoomData.t))
    (name : string) (room : RoomData.t) :
  parse_rooms room_order files = Ok all_rooms ->
  Dict.get name all_rooms = Some room ->
  RoomData.room_index room ≠ -1 ->
  target_name room_order (RoomData.room_index room) = name.
Proof.
  intros H Hget Hne.
  destruct (parse_rooms_index _ _ _ _ _ H Hget) as [_ Hindex].
  destruct (room_to_index room_order !! name) as [i|] eqn:Hlookup;
    simpl in Hindex; [|contradiction].
  apply room_to_index_last in Hlookup as (k & -> & Hk & _).
  rewrite Hindex. unfold target_name. pose proof (lookup_lt_Some _ _ _ Hk) as Hlt.
  destruct (0 <=? Z.of_nat k) eqn:H0; [|lia].
  destruct (Z.of_nat k <? Z.of_nat (length room_order)) eqn:H1; [|lia].
  simpl. rewrite Nat2Z.id, Hk. reflexivity.
Qed.

Lemma target_name_of_room_index_witness :
  target_name ["forest"; "town"] (RoomData.room_index town_room_data) = "town".
Proof.
  apply (target_name_of_room_index ["forest"; "town"] town_files
           [("town", town_room_data)] "town" town_room_data).
  - vm_compute. reflexivity.
  - vm_compute. reflexivity.
  - discriminate.
Defined.

Lemma add_rooms_keep (index : gmap string Z) (files : list (string * ET.document))
    (acc all_rooms : list (string * RoomData.t)) (name : string) (room : RoomData.t) :
  Forall (fun f => forall r, parse_room_file f.1 f.2 = Ok (Some r) ->
                             RoomData.name r ≠ name) files ->
  Dict.get name acc = Some room ->
  for_each (add_room index) files acc = Ok all_rooms ->
  Dict.get name all_rooms = Some room.
Proof.
  intros Hfiles. revert acc. induction Hfiles as [|f files Hf _ IH]; intros acc Hacc H.
  - simpl in H. injection H as <-. exact Hacc.
  - simpl in H. apply bind_Ok in H as (acc1 & H1 & H). apply (IH acc1); [|exact H].
    unfold add_room in H1. apply bind_Ok in H1 as ([r|] & Hr & H1); injection H1 as <-.
    + rewrite dict_get_set. cbn [RoomData.set_room_index RoomData.name].
      rewrite decide_False; [exact Hacc|]. intros ->. exact (Hf r Hr eq_refl).
    + exact Hacc.
Qed.

(** X9: when several files give rooms of the same name, the room of the
    last of them is the one the run keeps: a file's room is in
    [all_rooms], with its index set, when no later file gives a room of
    that name, whatever the earlier files gave. *)
Theorem last_room_of_a_name_is_kept (room_order : list string)
    (before after : list (string * ET.document)) (stem : string)
    (doc : ET.document) (parsed : RoomData.t)
    (all_rooms : list (string * RoomData.t)) :
  parse_rooms room_order (before ++ (stem, doc) :: after) = Ok all_rooms ->
  parse_room_file stem doc = Ok (Some parsed) ->
  Forall (fun f => forall r, parse_room_file f.1 f.2 = Ok (Some r) ->
                             RoomData.name r ≠ RoomData.name parsed) after ->
  Dict.get (RoomData.name parsed) all_rooms
  = Some (RoomData.set_room_index
            (default (-1) (room_to_index room_order !! RoomData.name parsed))
            parsed).
Proof.
  unfold parse_rooms. intros H Hparsed Hafter.
  rewrite for_each_app in H. apply bind_Ok in H as (acc & _ & H).
  simpl in H. apply bind_Ok in H as (acc1 & H1 & H).
  apply (add_rooms_keep (room_to_index room_order) after acc1 all_rooms);
    [exact Hafter | | exact H].
  unfold add_room in H1. cbn [fst snd] in H1. rewrite Hparsed in H1.
  cbv beta iota delta [mbind result_bind bind] in H1. injection H1 as <-.
  rewrite dict_get_set. cbn [RoomData.set_room_index RoomData.name].
  rewrite decide_True by reflexivity. reflexivity.
Qed.

Lemma last_room_of_a_name_is_kept_witness :
  Dict.get (RoomData.name (RoomData.mk "town" 0 640 480 true [] [] [] [] []))
    [("town", town_room_data)]
  = Some (RoomData.set_room_index
            (default (-1)
               (room_to_index ["forest"; "town"]
                  !! RoomData.name (RoomData.mk "town" 0 640 480 true [] [] [] [] [])))
            (RoomData.mk "town" 0 640 480 true [] [] [] [] [])).
Proof.
  apply (last_room_of_a_name_is_kept ["forest"; "town"]
           [("town.room", Some plain_room)] [] "town.room.room"
           (Some collectibles_room)).
  - vm_compute. reflexivity.
  - vm_compute. reflexivity.
  - constructor.
Defined.

Lemma output_rooms_map {V W} (f : V -> W) (items : list (string * V))
    (acc : list (string * W)) :
  NoDup (acc.*1 ++ items.*1) ->
  fold_left (fun d '(k, v) => Dict.set k (f v) d) items acc
  = acc ++ map (fun '(k, v) => (k, f v)) items.
Proof.
  revert acc. induction items as [|[k v] items IH]; intros acc Hnd; simpl.
  - rewrite app_nil_r. reflexivity.
  - assert (Dict.set k (f v) acc = acc ++ [(k, f v)]) as ->.
    { apply NoDup_app in Hnd as (_ & Hdis & _).
      assert (k ∉ acc.*1) as Hk.
      { intros Hin. apply (Hdis k Hin). apply list_elem_of_here. }
      clear -Hk. induction acc as [|[k0 v0] acc IHacc]; simpl; [reflexivity|].
      simpl in Hk. apply not_elem_of_cons in Hk as [Hne Hk].
      destruct (String.eqb_spec k k0); [congruence|]. rewrite (IHacc Hk). reflexivity. }
    rewrite IH.
    + rewrite <- app_assoc. reflexivity.
    + rewrite fmap_app. simpl. rewrite <- app_assoc. exact Hnd.
Qed.

(** X10: the output of a run holds, under [rooms], the record of every
    room of [all_rooms] under its name, in the order in which the names
    first came up, and under [room_order] the room order as it was read. *)
Theorem output_lists_all_rooms (project : ET.document)
    (files : list (string * ET.document)) (all_rooms : list (string * RoomData.t)) :
  parse_rooms (get_room_order project) files = Ok all_rooms ->
  main project files
  = Ok (JObj [("rooms",
               JObj (map (fun '(name, room) => (name, json_of_room room)) all_rooms));
              ("room_order", JList (map JStr (get_room_order project)))]).
Proof.
  intros H. unfold main. rewrite H. cbv beta iota delta [mbind result_bind bind].
  unfold build_output. rewrite (output_rooms_map json_of_room all_rooms []).
  - reflexivity.
  - simpl. eapply parse_rooms_NoDup, H.
Qed.

Lemma output_lists_all_rooms_witness :
  main (Some forest_town_project) town_files
  = Ok (JObj [("rooms",
               JObj (map (fun '(name, room) => (name, json_of_room room))
                       [("town", town_room_data)]));
              ("room_order",
               JList (map JStr (get_room_order (Some forest_town_project))))]).
Proof.
  apply (output_lists_all_rooms (Some forest_town_project) town_files
           [("town", town_room_data)]).
  vm_compute. reflexivity.
Defined.

(** ** The names and the values of a parsed script *)

(** The groups of a match: a non-empty run of word characters, and a
    non-empty text without a line break. *)
Lemma match_here_groups (s : string) (m : Re.found) :
  Re.match_here s = Some m ->
  Re.group1 m ≠ "" /\ all_chars Py.is_word (Re.group1 m) = true
  /\ Re.group2 m ≠ "" /\ all_chars Re.not_newline (Re.group2 m) = true.
Proof.
  unfold Re.match_here. intros H.
  apply rep_Some in H as (g1 & s1 & _ & Hg1 & Hlen1 & H).
  apply rep_Some in H as (sp1 & s2 & _ & _ & _ & H).
  unfold Re.lit in H. destruct s2 as [|c s3]; [discriminate|].
  destruct (ascii_dec "=" c) as [_|]; [|discriminate].
  apply rep_Some in H as (sp2 & s4 & _ & _ & _ & H).
  apply rep_Some in H as (g2 & s5 & _ & Hg2 & Hlen2 & H).
  injection H as <-. cbn [Re.group1 Re.group2].
  repeat split; try assumption.
  - destruct g1; [simpl in Hlen1; lia | discriminate].
  - destruct g2; [simpl in Hlen2; lia | discriminate].
Qed.

Lemma finditer_from_match (skip : nat) (s : string) (m : Re.found) :
  m ∈ Re.finditer_from skip s -> exists t, Re.match_here t = Some m.
Proof.
  revert skip. induction s as [|c s IH]; intros skip.
  - destruct skip; simpl; intros H; apply elem_of_nil in H; contradiction.
  - destruct skip as [|k]; cbn [Re.finditer_from]; [|apply IH].
    destruct (Re.match_here (String c s)) as [m'|] eqn:E; [|apply IH].
    intros H. apply elem_of_cons in H as [-> | H]; [eauto | exact (IH _ H)].
Qed.

Lemma lstrip_all_chars (p sp : ascii -> bool) (s : string) :
  all_chars p s = true -> all_chars p (Py.lstrip_by sp s) = true.
Proof.
  induction s as [|c s IH]; [reflexivity|]. intros H. simpl.
  destruct (sp c); [|exact H]. simpl in H. apply andb_true_iff in H as [_ H]. auto.
Qed.

Lemma rstrip_all_chars (p sp : ascii -> bool) (s : string) :
  all_chars p s = true -> all_chars p (Py.rstrip_by sp s) = true.
Proof.
  induction s as [|c s IH]; [reflexivity|]. intros H. simpl in H.
  apply andb_true_iff in H as [Hc Hs]. specialize (IH Hs). simpl.
  destruct (Py.rstrip_by sp s) as [|c' r].
  - destruct (sp c); simpl; [reflexivity | rewrite Hc; reflexivity].
  - change (all_chars p (String c (String c' r)))
      with (p c && all_chars p (String c' r)). rewrite Hc, IH. reflexivity.
Qed.

Lemma strip_all_chars (p : ascii -> bool) (s : string) :
  all_chars p s = true -> all_chars p (Py.strip s) = true.
Proof.
  intros H. unfold Py.strip, Py.strip_by.
  apply rstrip_all_chars, lstrip_all_chars, H.
Qed.

(** X11: every name of the mapping the parser returns is a non-empty run
    of word characters (letters, digits, underscore), and a value that is
    kept as text has no line break in it. *)
Theorem names_are_identifiers (code : option string) (vars : gmap string pyval)
    (name : string) (v : pyval) :
  parse_code_vars code = Ok vars ->
  vars !! name = Some v ->
  name ≠ "" /\ all_chars Py.is_word name = true
  /\ forall t, v = VStr t -> all_chars Re.not_newline t = true.
Proof.
  intros Hparse Hv. destruct code as [code|].
  - rewrite parse_code_vars_typed in Hparse. injection Hparse as <-.
    apply fold_store_lookup in Hv as [Hv | (m & Hin & -> & ->)].
    { rewrite lookup_empty in Hv. discriminate. }
    apply finditer_from_match in Hin as (s & Hm).
    apply match_here_groups in Hm as (Hne1 & Hw1 & _ & Hn2).
    assert (Py.strip (Re.group1 m) = Re.group1 m) as ->.
    { apply strip_none. revert Hw1. apply all_chars_impl. intros c Hc.
      rewrite (word_not_space c Hc). reflexivity. }
    repeat split; try assumption.
    intros t Ht. apply typed_value_text in Ht as ->. apply strip_all_chars, Hn2.
  - simpl in Hparse. injection Hparse as <-. rewrite lookup_empty in Hv. discriminate.
Qed.

Lemma names_are_identifiers_witness :
  "new_x" ≠ "" /\ all_chars Py.is_word "new_x" = true
  /\ forall t, VInt 120 = VStr t -> all_chars Re.not_newline t = true.
Proof.
  eapply (names_are_identifiers (Some "next_room = 5&#13;&#10;new_x=120") _
            "new_x" (VInt 120)).
  - vm_compute. reflexivity.
  - vm_compute. reflexivity.
Defined.

(** ** Scripts of well-formed assignments *)

(** X12: for a script of well-formed assignments, one per line, the
    mapping is built line by line: each line stores, under its name, its
    trimmed value coerced, a later line of the same name overwriting an
    earlier one. *)
Theorem well_formed_script_parsed (lines : list assignment) :
  well_formed_script lines = true ->
  parse_code_vars (Some (render lines)) = Ok (fold_left store_assignment lines ∅).
Proof.
  intros Hwf. rewrite parse_code_vars_typed.
  rewrite decode_entities_plain by (apply render_plain, Hwf).
  rewrite finditer_render by exact Hwf.
  rewrite store_matches_of by exact Hwf. reflexivity.
Qed.

Lemma well_formed_script_parsed_witness :
  parse_code_vars (Some (render warp_script))
  = Ok (fold_left store_assignment warp_script ∅).
Proof. apply (well_formed_script_parsed warp_script). vm_compute. reflexivity. Defined.

(** ** Line breaks written as character references *)

Lemma replace_cr_over_lf (new v : string) :
  Py.replace entity_cr new (entity_lf +:+ v)
  = entity_lf +:+ Py.replace entity_cr new v.
Proof. reflexivity. Qed.

Lemma replace_cr_pieces (ps : list piece) :
  forallb plain ps = true ->
  Py.replace entity_cr (String Py.CR "") (join written ps) = join half ps.
Proof.
  induction ps as [|p ps IH]; [reflexivity|]. simpl. intros H.
  apply andb_true_iff in H as [Hp Hps]. specialize (IH Hps).
  destruct p as [t| |]; cbn [written half].
  - unfold entity_cr in *. rewrite (replace_app_absent "&" _ _ t _ Hp), IH. reflexivity.
  - unfold entity_cr in *. rewrite (replace_head "&" "#13;"), IH. reflexivity.
  - rewrite replace_cr_over_lf, IH. reflexivity.
Qed.

Lemma replace_lf_pieces (ps : list piece) :
  forallb plain ps = true ->
  Py.replace entity_lf (String Py.LF "") (join half ps) = join meant ps.
Proof.
  induction ps as [|p ps IH]; [reflexivity|]. simpl. intros H.
  apply andb_true_iff in H as [Hp Hps]. specialize (IH Hps).
  destruct p as [t| |]; cbn [written half meant].
  - unfold entity_lf in *. rewrite (replace_app_absent "&" _ _ t _ Hp), IH. reflexivity.
  - unfold entity_lf in *.
    rewrite (replace_app_absent "&" "#10;" _ (String Py.CR "") _ eq_refl), IH.
    reflexivity.
  - unfold entity_lf in *. rewrite (replace_head "&" "#10;"), IH. reflexivity.
Qed.

Lemma meant_plain (ps : list piece) :
  forallb plain ps = true -> all_chars (differs "&") (join meant ps) = true.
Proof.
  induction ps as [|p ps IH]; [reflexivity|]. simpl. intros H.
  apply andb_true_iff in H as [Hp Hps]. rewrite all_chars_app, (IH Hps).
  destruct p; simpl in *; [rewrite Hp|..]; reflexivity.
Qed.

(** X13: decoding undoes the writing of line breaks as [&#13;] and
    [&#10;]: for a script whose text has no other [&], the decoded script
    is the script with the line break characters themselves, and the parser
    returns for the written script what it returns for that one. *)
Theorem references_are_line_breaks (ps : list piece) :
  forallb plain ps = true ->
  decode_entities (join written ps) = join meant ps
  /\ parse_code_vars (Some (join written ps))
     = parse_code_vars (Some (join meant ps)).
Proof.
  intros H.
  assert (decode_entities (join written ps) = join meant ps) as Hdecode.
  { unfold decode_entities. rewrite (replace_cr_pieces ps H).
    apply replace_lf_pieces, H. }
  split; [exact Hdecode|].
  rewrite !parse_code_vars_typed, Hdecode.
  rewrite (decode_entities_plain (join meant ps)) by (apply meant_plain, H).
  reflexivity.
Qed.

Lemma references_are_line_breaks_witness :
  decode_entities (join written warp_pieces) = join meant warp_pieces
  /\ parse_code_vars (Some (join written warp_pieces))
     = parse_code_vars (Some (join meant warp_pieces)).
Proof. apply (references_are_line_breaks warp_pieces). vm_compute. reflexivity. Defined.

(** ** Without a project file, without a whole number *)

(** X14: when the project file does not parse, or has no rooms section,
    the room order is empty and every room of the run has the index -1. *)
Theorem no_room_order_gives_sentinel (project : ET.document)
    (files : list (string * ET.document)) (all_rooms : list (string * RoomData.t))
    (name : string) (room : RoomData.t) :
  project = None
  \/ (exists root, project = Some root
                   /\ ET.find_descendant "rooms" "name" "rooms" root = None) ->
  parse_rooms (get_room_order project) files = Ok all_rooms ->
  Dict.get name all_rooms = Some room ->
  get_room_order project = [] /\ RoomData.room_index room = -1.
Proof.
  intros Hproject H Hget.
  assert (get_room_order project = []) as Horder.
  { destruct Hproject as [-> | (root & -> & Hnone)]; [reflexivity|].
    unfold get_room_order. rewrite Hnone. reflexivity. }
  split; [exact Horder|]. rewrite Horder in H.
  destruct (parse_rooms_index _ _ _ _ _ H Hget) as [_ ->]. reflexivity.
Qed.

Lemma no_room_order_gives_sentinel_witness :
  get_room_order None = []
  /\ RoomData.room_index (RoomData.mk "town" (-1) 640 480 true [] [] [] [] []) = -1.
Proof.
  apply (no_room_order_gives_sentinel None town_files
           [("town", RoomData.mk "town" (-1) 640 480 true [] [] [] [] [])] "town").
  - left. reflexivity.
  - vm_compute. reflexivity.
  - vm_compute. reflexivity.
Defined.

Lemma digits_value_chars (s : string) (after_digit : bool) (acc n : Z) :
  Py.digits_value s after_digit acc = Some n -> all_chars int_char s = true.
Proof.
  revert after_digit acc. induction s as [|c s IH]; intros b acc; [reflexivity|].
  simpl. unfold int_char at 1. destruct (Py.isdigit c); simpl.
  - intros H. apply IH in H. exact H.
  - destruct (Py.is_char 95 c); simpl; [|discriminate].
    destruct b; simpl; [|discriminate]. intros H. apply IH in H. exact H.
Qed.

Lemma lstrip_chars (p sp : ascii -> bool) (s : string) :
  all_chars p (Py.lstrip_by sp s) = true ->
  all_chars (fun c => p c || sp c) s = true.
Proof.
  induction s as [|c s IH]; [reflexivity|]. simpl. destruct (sp c) eqn:Hc.
  - intros H. rewrite orb_true_r. simpl. auto.
  - simpl. intros H. apply andb_true_iff in H as [-> H]. simpl.
    revert H. apply all_chars_impl. intros x ->. reflexivity.
Qed.

Lemma rstrip_chars (p sp : ascii -> bool) (s : string) :
  all_chars p (Py.rstrip_by sp s) = true ->
  all_chars (fun c => p c || sp c) s = true.
Proof.
  induction s as [|c s IH]; [reflexivity|]. simpl.
  destruct (Py.rstrip_by sp s) as [|c' r].
  - intros H. rewrite (IH eq_refl), andb_true_r.
    destruct (sp c); [apply orb_true_r|]. simpl in H.
    apply andb_true_iff in H as [-> _]. reflexivity.
  - intros H. change (all_chars p (String c (String c' r)))
      with (p c && all_chars p (String c' r)) in H.
    apply andb_true_iff in H as [-> H]. rewrite (IH H). reflexivity.
Qed.

(** An integer literal is made of digits, underscores, a sign and white
    space. *)
Lemma int_literal_chars (s : string) (n : Z) :
  Py.int_literal s = Some n -> all_chars int_char s = true.
Proof.
  unfold Py.int_literal, Py.strip_by. intros H.
  assert (all_chars int_char
            (Py.rstrip_by Py.is_numeric_space (Py.lstrip_by Py.is_numeric_space s))
          = true) as Hstripped.
  { destruct (Py.signed _) as [neg r] eqn:Hsigned.
    destruct (Py.digits_value r false 0) as [m|] eqn:Hd; [|discriminate].
    clear H. apply digits_value_chars in Hd. unfold Py.signed in Hsigned.
    destruct (Py.rstrip_by _ _) as [|c t]; [reflexivity|].
    destruct c as [[] [] [] [] [] [] [] []]; injection Hsigned as _ <-;
      first [exact Hd | (simpl in Hd |- *; exact Hd)]. }
  apply rstrip_chars, lstrip_chars in Hstripped. revert Hstripped.
  apply all_chars_impl. intros c Hc. unfold int_char in *.
  destruct (Py.isdigit c), (Py.is_char 95 c), (Py.is_char 43 c), (Py.is_char 45 c),
    (Py.is_numeric_space c); try reflexivity; discriminate.
Qed.

Lemma int_of_decimal_text (t : string) :
  Py.contains "." t = true -> Py.int t = Raise ValueError.
Proof.
  intros H. unfold Py.int. destruct (Py.int_literal t) as [n|] eqn:E; [|reflexivity].
  apply int_literal_chars in E. apply contains_spec in H as (pre & post & ->).
  rewrite !all_chars_app in E. apply andb_true_iff in E as [_ E].
  apply andb_true_iff in E as [E _]. discriminate.
Qed.

(** X15: a width whose text has a decimal point is refused, and so is
    such a height once the width is read: the parser raises [ValueError]. *)
Theorem decimal_dimension_raises (stem : string) (root e : ET.element) (t : string) :
  ET.find "width" root = Some e
  \/ ((exists w, dimension (ET.find "width" root) = Ok w)
      /\ ET.find "height" root = Some e) ->
  ET.text e = Some t ->
  Py.contains "." t = true ->
  parse_room_file stem (Some root) = Raise ValueError.
Proof.
  intros Hfind Ht Hdot. pose proof (int_of_decimal_text t Hdot) as Hint.
  assert (dimension (Some e) = Raise ValueError) as Hdim.
  { unfold dimension. rewrite Ht. destruct t; [discriminate | exact Hint]. }
  unfold parse_room_file. destruct Hfind as [-> | [[w ->] ->]].
  - rewrite Hdim. reflexivity.
  - rewrite Hdim. reflexivity.
Qed.

Lemma decimal_dimension_raises_witness :
  parse_room_file "hall.room" (Some decimal_width_room) = Raise ValueError.
Proof.
  apply (decimal_dimension_raises "hall.room" decimal_width_room
           (leaf "width" "640.0") "640.0").
  - left. vm_compute. reflexivity.
  - reflexivity.
  - vm_compute. reflexivity.
Defined.

(** * Worked examples *)

Example int_examples :
  Py.int "5" = Ok 5 /\ Py.int "-5" = Ok (-5) /\ Py.int " 1_000 " = Ok 1000
  /\ Py.int "007" = Ok 7 /\ Py.int "" = Raise ValueError
  /\ Py.int "1__0" = Raise ValueError /\ Py.int "1e5" = Raise ValueError
  /\ Py.int "+ 5" = Raise ValueError /\ Py.int "_1" = Raise ValueError.
Proof. repeat split; vm_compute; reflexivity. Qed.

Example float_examples :
  Py.float "1.5" = Ok (S754_finite false 6755399441055744 (-52))
  /\ Py.float "." = Raise ValueError /\ Py.float "1.2.3" = Raise ValueError
  /\ Py.float "1._5" = Raise ValueError /\ Py.float "1.5e" = Raise ValueError
  /\ Py.float "-Infinity" = Ok (S754_infinity true)
  /\ Py.float "1.5e1_0" = Py.float "15000000000"
  /\ Py.float "1e999" = Ok (S754_infinity false)
  /\ (Py.float "0.9999999999999999999999" ≫= Py.int_of_float) = Ok 1
  /\ (Py.float "12345678901234567890" ≫= Py.int_of_float) = Ok 12345678901234567168
  /\ (Py.float "-1.9" ≫= Py.int_of_float) = Ok (-1)
  /\ (Py.float "64" ≫= Py.int_of_float) = Ok 64.
Proof. repeat split; vm_compute; reflexivity. Qed.

Example finditer_examples :
  let nl := String Py.LF EmptyString in
  map show_match (Re.finditer ("a =" +:+ nl +:+ "b = 5")) = [("a", "b = 5")]
  /\ map show_match (Re.finditer ("a = " +:+ nl +:+ "b = 5")) = [("a", "b = 5")]
  /\ map show_match (Re.finditer ("a =" +:+ nl)) = []
  /\ map show_match (Re.finditer ("a = " +:+ nl)) = [("a", " ")]
  /\ map show_match (Re.finditer ("a =" +:+ nl +:+ "  " +:+ nl)) = [("a", " ")]
  /\ map show_match (Re.finditer ("b =" +:+ nl +:+ "a = " +:+ nl)) = [("b", "a = ")]
  /\ map show_match (Re.finditer "x.y = 3") = [("y", "3")]
  /\ map show_match (Re.finditer "a == 2") = [("a", "= 2")]
  /\ map show_match (Re.finditer "a=1; b=2") = [("a", "1; b=2")].
Proof. repeat split; vm_compute; reflexivity. Qed.

Example parse_code_vars_example :
  parse_code_vars (Some "next_room = 5&#13;&#10;new_x=120&#13;&#10;new_y=80")
  = Ok (<["new_y" := VInt 80]> (<["new_x" := VInt 120]> (<["next_room" := VInt 5]> ∅))).
Proof. vm_compute. reflexivity. Qed.

Example collectibles_examples :
  RoomData.has_collectibles <$> default None (from_ok (parse_room_file "town.room" (Some collectibles_room)))
  = Some true
  /\ RoomData.has_collectibles <$> default None (from_ok (parse_room_file "town.room" (Some plain_room)))
     = Some false.
Proof. split; vm_compute; reflexivity. Qed.

Example warp_script_example :
  render warp_script
  = "next_room = 5" +:+ String Py.CR (String Py.LF "new_x=120")
    +:+ String Py.CR (String Py.LF "new_y=80")
  /\ fold_left store_assignment warp_script ∅
     = <["new_y" := VInt 80]> (<["new_x" := VInt 120]> (<["next_room" := VInt 5]> ∅)).
Proof. split; vm_compute; reflexivity. Qed.

(** The longest literal [int()] reads has 4300 digits. *)
Example int_digit_limit :
  is_ok (Py.int (ones 4300)) = true
  /\ Py.int (ones 4301) = Raise ValueError
  /\ dimension (Some (leaf "width" (ones 4301))) = Raise ValueError.
Proof. repeat split; vm_compute; reflexivity. Qed.
